(** * Real-time voice conversation orchestrator: a shallow embedding

    The development embeds the real-time core of the backend:
    - [AudioProcessor]  (realtime/audioProcessor.js): RMS volume and silence
      classification of PCM16 buffers;
    - [StateManager]    (realtime/stateManager.js): the per-connection store;
    - [ElevenLabsStreamingClient] (realtime/elevenLabsStreamingClient.js):
      streaming text-to-speech with cancellation;
    - [OpenAIRealtimeClient] (realtime/openaiRealtimeClient.js): session open
      with its ten second timer;
    - [RealtimeServer]  (realtime/realtimeServer.js): connection setup,
      per-frame processing, barge-in and cleanup.

    Conventions.  JavaScript numbers that hold instants and identifiers are
    integers ([Z]); audio volumes are IEEE-754 binary64 numbers, which is what
    Rocq's primitive [float] is.  A call that may throw returns a
    [completion].  [Date.now()] is an explicit argument of every function
    that reads the clock.  Objects shared by reference (abort controllers)
    live in a store of their own, so that aliasing is visible.  Console
    logging is not modelled. *)

From Stdlib Require Import ZArith Floats Uint63.
From Stdlib.Strings Require Import Byte.
From stdpp Require Import gmap strings list pretty.

Open Scope Z_scope.

(** ** JavaScript completions *)

Inductive JsError : Type :=
| ERR_OUT_OF_RANGE            (* the RangeError of Buffer.readInt16LE *)
| ERR_CANCELED                (* axios CanceledError, raised on abort *)
| AbortError                  (* an error whose name is 'AbortError' *)
| Error (message : string)    (* new Error(message) *)
| TransportError (detail : string). (* remote 4xx/5xx, socket failure *)

Inductive completion (A : Type) : Type :=
| Return (a : A)
| Throw (e : JsError).
Arguments Return {A} a.
Arguments Throw {A} e.

#[global] Instance completion_bind : MBind completion :=
  fun A B (k : A -> completion B) (c : completion A) =>
    match c with
    | Return a => k a
    | Throw e => Throw e
    end.

(** [try { body } catch (error) { handler error }] *)
Definition try_catch {A} (body : completion A) (handler : JsError -> completion A)
  : completion A :=
  match body with
  | Return a => Return a
  | Throw e => handler e
  end.

Definition returns {A} (c : completion A) : Prop := exists a, c = Return a.

(** ** JavaScript strings of model text

    Text produced by the model is a sequence of UTF-16 code units;
    [String.prototype.trim] strips WhiteSpace and LineTerminator code
    points. *)

Abbreviation JSText := (list N).

Definition isWhiteSpace (c : N) : bool :=
  ((9 <=? c) && (c <=? 13) || (c =? 32) || (c =? 160) || (c =? 5760)
   || (8192 <=? c) && (c <=? 8202) || (c =? 8232) || (c =? 8233)
   || (c =? 8239) || (c =? 8287) || (c =? 12288) || (c =? 65279))%N.

Fixpoint trimStart (s : JSText) : JSText :=
  match s with
  | [] => []
  | c :: rest => if isWhiteSpace c then trimStart rest else s
  end.

Definition trimEnd (s : JSText) : JSText := rev (trimStart (rev s)).

Definition trim (s : JSText) : JSText := trimEnd (trimStart s).

Definition isEmptyText (s : JSText) : bool :=
  match s with [] => true | _ => false end.

(** [!text || text.trim() === ''] for a possibly absent [text]. *)
Definition blank (text : option JSText) : bool :=
  match text with
  | None => true
  | Some s => isEmptyText s || isEmptyText (trim s)
  end.

(** ** AudioProcessor *)

Module AudioProcessor.

Abbreviation Buffer := (list byte).

Definition byteZ (b : byte) : Z := Z.of_N (Byte.to_N b).

(** The 32-bit result of the JavaScript bitwise operators. *)
Definition toInt32 (z : Z) : Z := (z + 2 ^ 31) mod 2 ^ 32 - 2 ^ 31.

(** Node's [Buffer.prototype.readInt16LE]:
    [first = this[offset]; last = this[offset + 1];]
    a missing byte raises the range error;
    [val = first + last * 2 ** 8; return val | (val & 2 ** 15) * 0x1fffe]. *)
Definition readInt16LE (buf : Buffer) (offset : nat) : completion Z :=
  match buf !! offset, buf !! S offset with
  | Some first, Some last =>
      let val := byteZ first + byteZ last * 2 ^ 8 in
      Return (toInt32 (Z.lor val (toInt32 (Z.land val (2 ^ 15) * 131070))))
  | _, _ => Throw ERR_OUT_OF_RANGE
  end.

Definition float_of_Z (z : Z) : float :=
  if z <? 0 then PrimFloat.opp (PrimFloat.of_uint63 (Uint63.of_Z (- z)))
  else PrimFloat.of_uint63 (Uint63.of_Z z).

(** The loop [for (let i = 0; i < audioBuffer.length; i += 2)] of
    [calculateRMS]; [iterations] counts the indices 0, 2, 4, ... below the
    length that are still to be visited. *)
Fixpoint sumOfSquares (audioBuffer : Buffer) (iterations i : nat) (sum : float)
  : completion float :=
  match iterations with
  | O => Return sum
  | S k =>
      sample ← readInt16LE audioBuffer i;
      let normalized := PrimFloat.div (float_of_Z sample) 32768%float in
      sumOfSquares audioBuffer k (i + 2)
        (PrimFloat.add sum (PrimFloat.mul normalized normalized))
  end.

(** Number of even indices below [len]. *)
Definition loopCount (len : nat) : nat := Nat.div2 (S len).

Definition calculateRMS (audioBuffer : option Buffer) : completion float :=
  match audioBuffer with
  | None => Return 0%float
  | Some buf =>
      if Nat.eqb (length buf) 0 then Return 0%float
      else
        let samples :=
          PrimFloat.div (float_of_Z (Z.of_nat (length buf))) 2%float in
        sum ← sumOfSquares buf (loopCount (length buf)) 0 0%float;
        Return (PrimFloat.sqrt (PrimFloat.div sum samples))
  end.

Definition isAudioAboveThreshold (audioBuffer : option Buffer) (threshold : float)
  : completion bool :=
  rms ← calculateRMS audioBuffer;
  Return (PrimFloat.ltb threshold rms).

Record AudioInfo : Type := mkAudioInfo {
  isSilent : bool;
  volume : float;
  threshold : float
}.

(** [for (i = 0; i < Math.min(audioChunk.length, 100); i++)
       if (audioChunk[i] !== 0) nonZeroCount++] *)
Definition nonZeroCount (audioChunk : Buffer) : nat :=
  length (List.filter (fun b => negb (Byte.eqb b x00)) (take 100 audioChunk)).

Definition processAudioChunk (audioChunk : option Buffer) (silenceThreshold : float)
  : completion AudioInfo :=
  match audioChunk with
  | None => Return (mkAudioInfo true 0%float silenceThreshold)
  | Some chunk =>
      if Nat.eqb (length chunk) 0
      then Return (mkAudioInfo true 0%float silenceThreshold)
      else
        try_catch
          (rms ← calculateRMS audioChunk;
           Return (mkAudioInfo (PrimFloat.ltb rms silenceThreshold) rms
                     silenceThreshold))
          (fun _ =>
             let hasActivity := Nat.ltb 10 (nonZeroCount chunk) in
             Return (mkAudioInfo (negb hasActivity)
                       (if hasActivity then 0x1.999999999999ap-4%float else 0%float)
                       silenceThreshold))
  end.

(** [Buffer.concat(buffers)], with the empty input giving [Buffer.alloc(0)]. *)
Definition combineBuffers (buffers : list Buffer) : Buffer :=
  match buffers with
  | [] => []
  | _ => concat buffers
  end.

End AudioProcessor.

(** ** Abort controllers

    An [AbortController] is an object shared by reference between the state
    entry that stores it and the stream that reads its signal.  Controllers
    are named by numbers; the set [aborted] holds those whose
    [signal.aborted] is true. *)

Abbreviation AbortController := nat.

Definition signalAborted (abortController : option AbortController)
    (aborted : gset nat) : bool :=
  match abortController with
  | Some c => bool_decide (c ∈ aborted)
  | None => false
  end.

(** ** StateManager *)

Module StateManager.

Import AudioProcessor.

(** The entry object of [initialize], with the two listener properties the
    server attaches to it ([_eventHandlers], [_elevenLabsChunkHandler]:
    whether the listeners are registered). *)
Record ConnectionState : Type := mkConnectionState {
  connectionId : string;
  consultantId : Z;
  userId : Z;
  isUserSpeaking : bool;
  isAISpeaking : bool;
  lastUserAudioTime : option Z;
  lastAIAudioTime : option Z;
  silenceStartTime : option Z;
  isProcessing : bool;
  openaiSessionId : option string;
  elevenlabsAbortController : option AbortController;
  openaiAbortController : option AbortController;
  audioBuffer : list Buffer;
  textBuffer : JSText;
  createdAt : Z;
  _eventHandlers : bool;
  _elevenLabsChunkHandler : bool
}.

(** Field assignments [state.f = v]. *)
Definition set_isUserSpeaking (v : bool) (s : ConnectionState)
  : ConnectionState :=
  mkConnectionState (connectionId s) (consultantId s) (userId s) v
    (isAISpeaking s) (lastUserAudioTime s) (lastAIAudioTime s)
    (silenceStartTime s) (isProcessing s) (openaiSessionId s)
    (elevenlabsAbortController s) (openaiAbortController s) (audioBuffer s)
    (textBuffer s) (createdAt s) (_eventHandlers s)
    (_elevenLabsChunkHandler s).

Definition set_isAISpeaking (v : bool) (s : ConnectionState)
  : ConnectionState :=
  mkConnectionState (connectionId s) (consultantId s) (userId s)
    (isUserSpeaking s) v (lastUserAudioTime s) (lastAIAudioTime s)
    (silenceStartTime s) (isProcessing s) (openaiSessionId s)
    (elevenlabsAbortController s) (openaiAbortController s) (audioBuffer s)
    (textBuffer s) (createdAt s) (_eventHandlers s)
    (_elevenLabsChunkHandler s).

Definition set_lastUserAudioTime (v : option Z) (s : ConnectionState)
  : ConnectionState :=
  mkConnectionState (connectionId s) (consultantId s) (userId s)
    (isUserSpeaking s) (isAISpeaking s) v (lastAIAudioTime s)
    (silenceStartTime s) (isProcessing s) (openaiSessionId s)
    (elevenlabsAbortController s) (openaiAbortController s) (audioBuffer s)
    (textBuffer s) (createdAt s) (_eventHandlers s)
    (_elevenLabsChunkHandler s).

Definition set_lastAIAudioTime (v : option Z) (s : ConnectionState)
  : ConnectionState :=
  mkConnectionState (connectionId s) (consultantId s) (userId s)
    (isUserSpeaking s) (isAISpeaking s) (lastUserAudioTime s) v
    (silenceStartTime s) (isProcessing s) (openaiSessionId s)
    (elevenlabsAbortController s) (openaiAbortController s) (audioBuffer s)
    (textBuffer s) (createdAt s) (_eventHandlers s)
    (_elevenLabsChunkHandler s).

Definition set_silenceStartTime (v : option Z) (s : ConnectionState)
  : ConnectionState :=
  mkConnectionState (connectionId s) (consultantId s) (userId s)
    (isUserSpeaking s) (isAISpeaking s) (lastUserAudioTime s)
    (lastAIAudioTime s) v (isProcessing s) (openaiSessionId s)
    (elevenlabsAbortController s) (openaiAbortController s) (audioBuffer s)
    (textBuffer s) (createdAt s) (_eventHandlers s)
    (_elevenLabsChunkHandler s).

Definition set_openaiSessionId (v : option string) (s : ConnectionState)
  : ConnectionState :=
  mkConnectionState (connectionId s) (consultantId s) (userId s)
    (isUserSpeaking s) (isAISpeaking s) (lastUserAudioTime s)
    (lastAIAudioTime s) (silenceStartTime s) (isProcessing s) v
    (elevenlabsAbortController s) (openaiAbortController s) (audioBuffer s)
    (textBuffer s) (createdAt s) (_eventHandlers s)
    (_elevenLabsChunkHandler s).

Definition set_elevenlabsAbortController (v : option AbortController) (s : ConnectionState)
  : ConnectionState :=
  mkConnectionState (connectionId s) (consultantId s) (userId s)
    (isUserSpeaking s) (isAISpeaking s) (lastUserAudioTime s)
    (lastAIAudioTime s) (silenceStartTime s) (isProcessing s)
    (openaiSessionId s) v (openaiAbortController s) (audioBuffer s)
    (textBuffer s) (createdAt s) (_eventHandlers s)
    (_elevenLabsChunkHandler s).

Definition set_openaiAbortController (v : option AbortController) (s : ConnectionState)
  : ConnectionState :=
  mkConnectionState (connectionId s) (consultantId s) (userId s)
    (isUserSpeaking s) (isAISpeaking s) (lastUserAudioTime s)
    (lastAIAudioTime s) (silenceStartTime s) (isProcessing s)
    (openaiSessionId s) (elevenlabsAbortController s) v (audioBuffer s)
    (textBuffer s) (createdAt s) (_eventHandlers s)
    (_elevenLabsChunkHandler s).

Definition set_audioBuffer (v : list Buffer) (s : ConnectionState)
  : ConnectionState :=
  mkConnectionState (connectionId s) (consultantId s) (userId s)
    (isUserSpeaking s) (isAISpeaking s) (lastUserAudioTime s)
    (lastAIAudioTime s) (silenceStartTime s) (isProcessing s)
    (openaiSessionId s) (elevenlabsAbortController s)
    (openaiAbortController s) v (textBuffer s) (createdAt s)
    (_eventHandlers s) (_elevenLabsChunkHandler s).

Definition set_textBuffer (v : JSText) (s : ConnectionState)
  : ConnectionState :=
  mkConnectionState (connectionId s) (consultantId s) (userId s)
    (isUserSpeaking s) (isAISpeaking s) (lastUserAudioTime s)
    (lastAIAudioTime s) (silenceStartTime s) (isProcessing s)
    (openaiSessionId s) (elevenlabsAbortController s)
    (openaiAbortController s) (audioBuffer s) v (createdAt s)
    (_eventHandlers s) (_elevenLabsChunkHandler s).

Definition set_eventHandlers (v : bool) (s : ConnectionState)
  : ConnectionState :=
  mkConnectionState (connectionId s) (consultantId s) (userId s)
    (isUserSpeaking s) (isAISpeaking s) (lastUserAudioTime s)
    (lastAIAudioTime s) (silenceStartTime s) (isProcessing s)
    (openaiSessionId s) (elevenlabsAbortController s)
    (openaiAbortController s) (audioBuffer s) (textBuffer s) (createdAt s)
    v (_elevenLabsChunkHandler s).

Definition set_elevenLabsChunkHandler (v : bool) (s : ConnectionState)
  : ConnectionState :=
  mkConnectionState (connectionId s) (consultantId s) (userId s)
    (isUserSpeaking s) (isAISpeaking s) (lastUserAudioTime s)
    (lastAIAudioTime s) (silenceStartTime s) (isProcessing s)
    (openaiSessionId s) (elevenlabsAbortController s)
    (openaiAbortController s) (audioBuffer s) (textBuffer s) (createdAt s)
    (_eventHandlers s) v.

(** The singleton's [connections] map, the controller objects, and the
    counter that names the next [new AbortController()]. *)
Record Memory : Type := mkMemory {
  connections : gmap string ConnectionState;
  aborted : gset nat;
  nextController : nat
}.

Definition setConnections (c : gmap string ConnectionState) (m : Memory) : Memory :=
  mkMemory c (aborted m) (nextController m).

Definition setAborted (a : gset nat) (m : Memory) : Memory :=
  mkMemory (connections m) a (nextController m).

(** A mutation of the entry object reached through the map. *)
Definition writeState (connectionId : string) (state : ConnectionState)
    (m : Memory) : Memory :=
  setConnections (<[connectionId := state]> (connections m)) m.

(** [controller.abort()] *)
Definition abort (controller : AbortController) (m : Memory) : Memory :=
  setAborted ({[controller]} ∪ aborted m) m.

Definition capacity : nat := 100.

Definition initialize (connectionId : string) (consultantId userId : Z)
    (now : Z) (m : Memory) : Memory :=
  setConnections
    (<[connectionId :=
         mkConnectionState connectionId consultantId userId false false
           None None None false None None None [] [] now
           false false]> (connections m)) m.

Definition getState (connectionId : string) (m : Memory)
  : option ConnectionState :=
  connections m !! connectionId.

Definition setUserSpeaking (connectionId : string) (isSpeaking : bool)
    (now : Z) (m : Memory) : Memory :=
  match getState connectionId m with
  | None => m
  | Some state =>
      let state := set_isUserSpeaking isSpeaking state in
      let state :=
        if isSpeaking
        then set_silenceStartTime None (set_lastUserAudioTime (Some now) state)
        else set_silenceStartTime (Some now) state in
      writeState connectionId state m
  end.

Definition setAISpeaking (connectionId : string) (isSpeaking : bool)
    (now : Z) (m : Memory) : Memory :=
  match getState connectionId m with
  | None => m
  | Some state =>
      let state := set_isAISpeaking isSpeaking state in
      let state :=
        if isSpeaking then set_lastAIAudioTime (Some now) state else state in
      writeState connectionId state m
  end.

Definition shouldBargeIn (connectionId : string) (m : Memory) : bool :=
  match getState connectionId m with
  | None => false
  | Some state => isUserSpeaking state && isAISpeaking state
  end.

Definition setOpenAISessionId (connectionId : string) (sessionId : string)
    (m : Memory) : Memory :=
  match getState connectionId m with
  | None => m
  | Some state => writeState connectionId (set_openaiSessionId (Some sessionId) state) m
  end.

Definition setElevenLabsAbortController (connectionId : string)
    (controller : option AbortController) (m : Memory) : Memory :=
  match getState connectionId m with
  | None => m
  | Some state =>
      writeState connectionId (set_elevenlabsAbortController controller state) m
  end.

Definition setOpenAIAbortController (connectionId : string)
    (controller : option AbortController) (m : Memory) : Memory :=
  match getState connectionId m with
  | None => m
  | Some state =>
      writeState connectionId (set_openaiAbortController controller state) m
  end.

Definition abortAIResponse (connectionId : string) (m : Memory) : Memory :=
  match getState connectionId m with
  | None => m
  | Some state =>
      (* Abort ElevenLabs streaming *)
      let '(state, m) :=
        match elevenlabsAbortController state with
        | Some controller =>
            (set_elevenlabsAbortController None state, abort controller m)
        | None => (state, m)
        end in
      (* Abort OpenAI response *)
      let '(state, m) :=
        match openaiAbortController state with
        | Some controller =>
            (set_openaiAbortController None state, abort controller m)
        | None => (state, m)
        end in
      (* Reset AI speaking state *)
      let state := set_isAISpeaking false state in
      let state := set_textBuffer [] state in
      writeState connectionId state m
  end.

(** [push] then, above the capacity, [shift]. *)
Definition addAudioChunk (connectionId : string) (chunk : Buffer)
    (m : Memory) : Memory :=
  match getState connectionId m with
  | None => m
  | Some state =>
      let buffer := audioBuffer state ++ [chunk] in
      let buffer :=
        if Nat.ltb capacity (length buffer) then tail buffer else buffer in
      writeState connectionId (set_audioBuffer buffer state) m
  end.

Definition clearAudioBuffer (connectionId : string) (m : Memory) : Memory :=
  match getState connectionId m with
  | None => m
  | Some state => writeState connectionId (set_audioBuffer [] state) m
  end.

Definition addText (connectionId : string) (text : JSText) (m : Memory)
  : Memory :=
  match getState connectionId m with
  | None => m
  | Some state =>
      writeState connectionId (set_textBuffer (textBuffer state ++ text) state) m
  end.

Definition clearTextBuffer (connectionId : string) (m : Memory) : Memory :=
  match getState connectionId m with
  | None => m
  | Some state => writeState connectionId (set_textBuffer [] state) m
  end.

(** [!state.silenceStartTime] holds for [null] and for the number 0. *)
Definition isSilenceDetected (connectionId : string) (silenceThresholdMs : Z)
    (now : Z) (m : Memory) : bool :=
  match getState connectionId m with
  | None => false
  | Some state =>
      match silenceStartTime state with
      | None => false
      | Some start =>
          if start =? 0 then false
          else
            let silenceDuration := now - start in
            (silenceThresholdMs <=? silenceDuration)
            && negb (isUserSpeaking state)
      end
  end.

Definition remove (connectionId : string) (m : Memory) : Memory :=
  let m :=
    match getState connectionId m with
    | Some _ => abortAIResponse connectionId m
    | None => m
    end in
  setConnections (delete connectionId (connections m)) m.

(** A run of insertions, one [addAudioChunk] per frame, in order. *)
Definition addAudioChunks (connectionId : string) (frames : list Buffer)
    (m : Memory) : Memory :=
  foldl (fun m chunk => addAudioChunk connectionId chunk m) m frames.

(** The store of a server that has not accepted a connection yet. *)
Definition emptyMemory : Memory := mkMemory ∅ ∅ 0.

(** The calls that change the store: the methods of the state manager and
    what the server does to the store directly (creating or aborting a
    controller, attaching a listener property to an entry). *)
Inductive Call : Type :=
| call_initialize (connectionId : string) (consultantId userId now : Z)
| call_setUserSpeaking (connectionId : string) (isSpeaking : bool) (now : Z)
| call_setAISpeaking (connectionId : string) (isSpeaking : bool) (now : Z)
| call_setOpenAISessionId (connectionId sessionId : string)
| call_setElevenLabsAbortController (connectionId : string)
    (controller : option AbortController)
| call_setOpenAIAbortController (connectionId : string)
    (controller : option AbortController)
| call_abortAIResponse (connectionId : string)
| call_addAudioChunk (connectionId : string) (chunk : Buffer)
| call_clearAudioBuffer (connectionId : string)
| call_addText (connectionId : string) (text : JSText)
| call_clearTextBuffer (connectionId : string)
| call_remove (connectionId : string)
| call_newAbortController
| call_abort (controller : AbortController)
| call_setEventHandlers (connectionId : string) (registered : bool)
| call_setChunkHandler (connectionId : string) (registered : bool).

Definition perform (call : Call) (m : Memory) : Memory :=
  match call with
  | call_initialize c consultant user now => initialize c consultant user now m
  | call_setUserSpeaking c isSpeaking now => setUserSpeaking c isSpeaking now m
  | call_setAISpeaking c isSpeaking now => setAISpeaking c isSpeaking now m
  | call_setOpenAISessionId c sessionId => setOpenAISessionId c sessionId m
  | call_setElevenLabsAbortController c controller =>
      setElevenLabsAbortController c controller m
  | call_setOpenAIAbortController c controller =>
      setOpenAIAbortController c controller m
  | call_abortAIResponse c => abortAIResponse c m
  | call_addAudioChunk c chunk => addAudioChunk c chunk m
  | call_clearAudioBuffer c => clearAudioBuffer c m
  | call_addText c text => addText c text m
  | call_clearTextBuffer c => clearTextBuffer c m
  | call_remove c => remove c m
  | call_newAbortController =>
      mkMemory (connections m) (aborted m) (S (nextController m))
  | call_abort controller => abort controller m
  | call_setEventHandlers c registered =>
      match getState c m with
      | Some state => writeState c (set_eventHandlers registered state) m
      | None => m
      end
  | call_setChunkHandler c registered =>
      match getState c m with
      | Some state => writeState c (set_elevenLabsChunkHandler registered state) m
      | None => m
      end
  end.

(** Every entry's frame buffer is within the capacity. *)
Definition bufferBounded (m : Memory) : Prop :=
  forall c s, getState c m = Some s -> (length (audioBuffer s) <= capacity)%nat.

(** The stores the running server can hold. *)
Definition reachable (m : Memory) : Prop :=
  exists calls, m = foldl (fun m call => perform call m) emptyMemory calls.

End StateManager.

(** ** Sockets and observable effects

    A WebSocket is represented by its [readyState] at the time of the step.
    The effects of a step are the calls it makes on its sockets and on the
    HTTP client, in program order. *)

Inductive ReadyState : Type := CONNECTING | OPEN | CLOSING | CLOSED.

Definition isOpen (socket : option ReadyState) : bool :=
  match socket with
  | Some OPEN => true
  | _ => false
  end.

(** [!value] is false exactly for a non-empty string. *)
Definition truthy (value : option string) : bool :=
  match value with
  | Some s => negb (String.eqb s "")
  | None => false
  end.

Inductive ClientMessage : Type :=
| connection_success (connectionId : string) (consultantId : Z)
| ai_speaking_start
| ai_response_complete
| ai_response_interrupted
| barge_in
| error_message (error : string)
| pong.

Inductive ModelMessage : Type :=
| session_update (instructions : string)
| input_audio_buffer_append (audio : AudioProcessor.Buffer)
| input_audio_buffer_commit
| response_cancel
| response_create.

Inductive Effect : Type :=
| ClientSend (message : ClientMessage)      (* ws.send(JSON.stringify(..)) *)
| ClientClose (code : Z) (reason : string)  (* ws.close(code, reason) *)
| ModelSend (message : ModelMessage)        (* session.send(JSON.stringify(..)) *)
| ModelClose                                (* session.close() *)
| SynthesisRequest (text : JSText) (voiceId : string) (* axios.post(.../stream) *)
| RemoveChunkListener
| RemoveModelListeners.

(** ** ElevenLabsStreamingClient *)

Module ElevenLabsStreamingClient.

Import AudioProcessor.

(** Events emitted by the client on itself. *)
Inductive Emitted : Type :=
| audio_chunk (chunk : Buffer)
| stream_end
| stream_aborted
| error (e : JsError).

(** What happens on the response stream, in order.  [aborts c] marks the
    point at which some party calls [c.abort()]. *)
Inductive StreamEvent : Type :=
| data (chunk : Buffer)
| end_of_stream
| failure (e : JsError)
| aborts (controller : AbortController).

(** The remote end either lets [axios.post] reject or answers with a
    stream. *)
Inductive Transport : Type :=
| Rejects (e : JsError)
| Responds (events : list StreamEvent).

(** [axios.post(.., { signal })]: a request whose signal is already
    aborted is rejected with the cancellation error. *)
Definition axiosPost (abortController : option AbortController)
    (aborted : gset nat) (transport : Transport) : Transport :=
  if signalAborted abortController aborted then Rejects ERR_CANCELED
  else transport.

(** [error.name === 'AbortError' || error.code === 'ERR_CANCELED'] *)
Definition isAbort (e : JsError) : bool :=
  match e with
  | AbortError | ERR_CANCELED => true
  | _ => false
  end.

(** The handler of ['data']. *)
Definition onData (abortController : option AbortController)
    (aborted : gset nat) (chunk : Buffer) : list Emitted :=
  if signalAborted abortController aborted then []
  else [audio_chunk chunk].

(** The handler of ['end']. *)
Definition onEnd : list Emitted := [stream_end].

(** The handler of ['error']. *)
Definition onError (abortController : option AbortController)
    (aborted : gset nat) (e : JsError) : list Emitted :=
  if negb (signalAborted abortController aborted) then [error e]
  else [].

Fixpoint deliver (abortController : option AbortController)
    (events : list StreamEvent) (aborted : gset nat) : list Emitted :=
  match events with
  | [] => []
  | data chunk :: rest =>
      onData abortController aborted chunk
        ++ deliver abortController rest aborted
  | end_of_stream :: rest => onEnd ++ deliver abortController rest aborted
  | failure e :: rest =>
      onError abortController aborted e
        ++ deliver abortController rest aborted
  | aborts c :: rest => deliver abortController rest ({[c]} ∪ aborted)
  end.

(** The aborted signals once [events] have happened. *)
Fixpoint signalsAfter (events : list StreamEvent) (aborted : gset nat)
  : gset nat :=
  match events with
  | [] => aborted
  | aborts c :: rest => signalsAfter rest ({[c]} ∪ aborted)
  | _ :: rest => signalsAfter rest aborted
  end.

Record Outcome : Type := mkOutcome {
  result : completion unit;   (* how the returned promise settles *)
  requests : list Effect;     (* calls of [axios.post] *)
  emitted : list Emitted      (* events emitted, in order *)
}.

Definition streamTextToSpeech (apiKey : option string) (text : option JSText)
    (voiceId : option string) (abortController : option AbortController)
    (aborted : gset nat) (transport : Transport) : Outcome :=
  if negb (truthy apiKey)
  then mkOutcome (Throw (Error "ElevenLabs API key not configured")) [] []
  else if negb (truthy voiceId)
  then mkOutcome (Throw (Error "Voice ID is required")) [] []
  else if blank text
  then mkOutcome (Throw (Error "Text is required")) [] []
  else
    let request :=
      [SynthesisRequest (default [] text) (default "" voiceId)] in
    match axiosPost abortController aborted transport with
    | Responds events =>
        mkOutcome (Return tt) request (deliver abortController events aborted)
    | Rejects e =>
        if isAbort e
        then mkOutcome (Return tt) request [stream_aborted]
        else mkOutcome (Throw e) request []
    end.


End ElevenLabsStreamingClient.

(** ** OpenAIRealtimeClient *)

Module OpenAIRealtimeClient.

Import AudioProcessor.

(** What the WebSocket to the model does after it is created: the instant
    (in milliseconds after creation) of its ['open'] or ['error'] event,
    if any. *)
Inductive SocketBehaviour : Type :=
| OpensAfter (ms : Z)
| FailsAfter (ms : Z) (e : JsError)
| Silent.

Definition connectionTimeoutMs : Z := 10000.

(** The promise awaited by [createSession]: the first of ['open'],
    ['error'] and the timer settles it; when the timer fires the socket is
    not open yet, and the promise is rejected. *)
Definition awaitOpen (behaviour : SocketBehaviour) : completion unit :=
  match behaviour with
  | OpensAfter ms =>
      if ms <? connectionTimeoutMs then Return tt
      else Throw (Error "Connection timeout")
  | FailsAfter ms e =>
      if ms <? connectionTimeoutMs then Throw e
      else Throw (Error "Connection timeout")
  | Silent => Throw (Error "Connection timeout")
  end.

(** The socket neither opens nor fails before the timer fires. *)
Definition timesOut (behaviour : SocketBehaviour) : Prop :=
  match behaviour with
  | OpensAfter ms | FailsAfter ms _ => connectionTimeoutMs <= ms
  | Silent => True
  end.

Record SessionOptions : Type := mkSessionOptions {
  instructions : option string;
  language : option string
}.

Record Session : Type := mkSession {
  session : ReadyState;
  sessionId : string
}.

Definition configuredInstructions (options : SessionOptions) : string :=
  let base :=
    if truthy (instructions options) then default "" (instructions options)
    else "You are a helpful AI assistant." in
  if truthy (language options)
  then base +:+ " Please respond in " +:+ default "" (language options)
            +:+ " language."
  else base.

(** [createSession]; [generatedId] stands for the generated session id. *)
Definition createSession (apiKey : option string) (options : SessionOptions)
    (behaviour : SocketBehaviour) (generatedId : string)
  : completion (Session * list Effect) :=
  if negb (truthy apiKey) then Throw (Error "OPENAI_API_KEY is not configured")
  else
    try_catch
      (_ ← awaitOpen behaviour;
       Return (mkSession OPEN generatedId,
               [ModelSend (session_update (configuredInstructions options))]))
      (fun error => Throw error).

(** The frame travels base64-encoded; the effect records the frame. *)
Definition sendAudioInput (session : ReadyState) (audioBuffer : Buffer)
  : list Effect :=
  match session with
  | OPEN => [ModelSend (input_audio_buffer_append audioBuffer)]
  | _ => []
  end.

Definition signalAudioInputDone (session : ReadyState) : list Effect :=
  match session with
  | OPEN => [ModelSend input_audio_buffer_commit]
  | _ => []
  end.

Definition cancelResponse (session : ReadyState) : list Effect :=
  match session with
  | OPEN => [ModelSend response_cancel]
  | _ => []
  end.

Definition closeSession (session : ReadyState) : list Effect :=
  match session with
  | OPEN => [ModelClose]
  | _ => []
  end.

End OpenAIRealtimeClient.

(** ** RealtimeServer *)

Module RealtimeServer.

Import AudioProcessor StateManager.

(** [this.silenceThreshold = 0.005], the nearest binary64 number. *)
Definition silenceThreshold : float := 0x1.47ae147ae147bp-8%float.

Definition silenceDurationMs : Z := 1000.

(** [handleAudioChunk]: the function contains no [await], so one call is
    one uninterrupted step.  [now1] is the clock read by
    [setUserSpeaking], [now2] the one read by [isSilenceDetected]. *)
Definition handleAudioChunk (connectionId : string) (audioChunk : Buffer)
    (openaiSession : option ReadyState) (now1 now2 : Z) (m : Memory)
  : completion (Memory * list Effect) :=
  match getState connectionId m with
  | None => Return (m, [])
  | Some _ =>
      (* Add audio chunk to buffer for processing *)
      let m := addAudioChunk connectionId audioChunk m in
      (* Process audio for silence detection *)
      audioInfo ← processAudioChunk (Some audioChunk) silenceThreshold;
      (* Update user speaking state *)
      let isUserSpeaking := negb (isSilent audioInfo) in
      let m := setUserSpeaking connectionId isUserSpeaking now1 m in
      (* Check for barge-in (user speaks while AI is speaking) *)
      let '(m, bargeIn) :=
        if shouldBargeIn connectionId m
        then
          let m := abortAIResponse connectionId m in
          let cancel :=
            match openaiSession with
            | Some OPEN => OpenAIRealtimeClient.cancelResponse OPEN
            | _ => []
            end in
          (m, cancel ++ [ClientSend barge_in])
        else (m, []) in
      (* Send audio to OpenAI Realtime API *)
      let forwarded :=
        if isUserSpeaking
        then
          match openaiSession with
          | Some OPEN => OpenAIRealtimeClient.sendAudioInput OPEN audioChunk
          | _ => []
          end
        else [] in
      (* Check for silence (user stopped speaking) *)
      let '(m, committed) :=
        if isSilenceDetected connectionId silenceDurationMs now2 m
        then
          let done :=
            match openaiSession with
            | Some OPEN => OpenAIRealtimeClient.signalAudioInputDone OPEN
            | _ => []
            end in
          (clearAudioBuffer connectionId m, done)
        else (m, []) in
      Return (m, bargeIn ++ forwarded ++ committed)
  end.

(** [cleanupConnection]; [openaiSession] is [None] for [null]. *)
Definition cleanupConnection (connectionId : string)
    (openaiSession : option ReadyState) (m : Memory) : Memory * list Effect :=
  let state := getState connectionId m in
  (* Clean up ElevenLabs audio chunk handler if exists *)
  let '(m, chunkListener) :=
    match state with
    | Some s =>
        if _elevenLabsChunkHandler s
        then (writeState connectionId (set_elevenLabsChunkHandler false s) m,
              [RemoveChunkListener])
        else (m, [])
    | None => (m, [])
    end in
  (* Remove event handlers *)
  let modelListeners :=
    match state with
    | Some s => if _eventHandlers s then [RemoveModelListeners] else []
    | None => []
    end in
  (* Abort any ongoing AI responses *)
  let m := abortAIResponse connectionId m in
  (* Close OpenAI session *)
  let closed :=
    match openaiSession with
    | Some session => OpenAIRealtimeClient.closeSession session
    | None => []
    end in
  (* Remove state *)
  let m := remove connectionId m in
  (m, chunkListener ++ modelListeners ++ closed).

Definition setupOpenAIHandlers (connectionId : string) (m : Memory) : Memory :=
  match getState connectionId m with
  | None => m
  | Some state => writeState connectionId (set_eventHandlers true state) m
  end.

(** The collaborators awaited by [handleConnection], each given by the
    outcome of its call. *)
Inductive AuthResult : Type :=
| AuthFailure (error : string)
| AuthSuccess (userId consultantId : Z).

Record Consultant : Type := mkConsultant {
  voiceId : option string;
  mainPrompt : option string
}.

Record User : Type := mkUser { nativeLang : option string }.

Record Collaborators : Type := mkCollaborators {
  authenticateConnection : AuthResult;
  getConsultantById : completion (option Consultant);
  getUserById : completion (option User);
  openaiApiKey : option string;
  modelSocket : OpenAIRealtimeClient.SocketBehaviour;
  generatedSessionId : string;
  connectedAt : Z;      (* Date.now() of the connection id *)
  initializedAt : Z     (* Date.now() of [initialize] *)
}.

Inductive Setup : Type :=
| Refused (reason : string)          (* ws.close(1008, reason), nothing created *)
| Established (connectionId : string)
| Failed (connectionId : string) (e : JsError).

Definition makeConnectionId (userId consultantId now : Z) : string :=
  pretty userId +:+ "_" +:+ pretty consultantId +:+ "_" +:+ pretty now.

(** The [catch] block of [handleConnection], reached with the connection
    id already assigned (a template string with two underscores, hence
    truthy). *)
Definition setupFailed (connectionId : string) (ws : ReadyState)
    (e : JsError) (m : Memory) : Memory * list Effect * Setup :=
  let closing :=
    match ws with
    | OPEN => [ClientClose 1011 "Internal server error"]
    | _ => []
    end in
  let '(m, cleaned) := cleanupConnection connectionId None m in
  (m, closing ++ cleaned, Failed connectionId e).

(** [handleConnection], up to the end of the setup: the greeting timer and
    the socket listeners set after the success message are started there
    and run later. *)
Definition handleConnection (env : Collaborators) (ws : ReadyState)
    (m : Memory) : Memory * list Effect * Setup :=
  match authenticateConnection env with
  | AuthFailure error => (m, [ClientClose 1008 error], Refused error)
  | AuthSuccess userId consultantId =>
      let connectionId :=
        makeConnectionId userId consultantId (connectedAt env) in
      match getConsultantById env with
      | Throw e => setupFailed connectionId ws e m
      | Return None =>
          (m, [ClientClose 1008 "Consultant not found"],
           Refused "Consultant not found")
      | Return (Some consultant) =>
          if negb (truthy (voiceId consultant))
          then (m, [ClientClose 1008 "Consultant voice ID not configured"],
                Refused "Consultant voice ID not configured")
          else
            (* Initialize state *)
            let m :=
              initialize connectionId consultantId userId
                (initializedAt env) m in
            (* Initialize OpenAI Realtime session *)
            match getUserById env with
            | Throw e => setupFailed connectionId ws e m
            | Return user =>
                let options :=
                  OpenAIRealtimeClient.mkSessionOptions
                    (Some (if truthy (mainPrompt consultant)
                           then default "" (mainPrompt consultant)
                           else "You are a helpful AI assistant."))
                    (Some (if truthy (user ≫= nativeLang)
                           then default "" (user ≫= nativeLang)
                           else "en")) in
                match OpenAIRealtimeClient.createSession (openaiApiKey env)
                        options (modelSocket env) (generatedSessionId env)
                with
                | Throw e => setupFailed connectionId ws e m
                | Return (openaiSession, configured) =>
                    let m :=
                      setOpenAISessionId connectionId
                        (OpenAIRealtimeClient.sessionId openaiSession) m in
                    let m := setupOpenAIHandlers connectionId m in
                    (m,
                     configured
                       ++ [ClientSend
                             (connection_success connectionId consultantId)],
                     Established connectionId)
                end
            end
      end
  end.

(** [new AbortController()] *)
Definition newAbortController (m : Memory) : AbortController * Memory :=
  (nextController m,
   mkMemory (connections m) (aborted m) (S (nextController m))).

(** [streamTextDeltaToElevenLabs], up to the registration of the chunk
    listeners that follows the awaited request. *)
Definition streamTextDeltaToElevenLabs (connectionId : string)
    (textDelta : JSText) (voice : option string) (ws : ReadyState)
    (elevenlabsApiKey : option string)
    (transport : ElevenLabsStreamingClient.Transport) (now : Z) (m : Memory)
  : Memory * list Effect :=
  match getState connectionId m with
  | None => (m, [])
  | Some state =>
      (* Check for barge-in *)
      if shouldBargeIn connectionId m
      then (abortAIResponse connectionId m, [])
      else
        (* Set AI speaking state *)
        let wasAISpeaking := isAISpeaking state in
        let m := setAISpeaking connectionId true now m in
        let started :=
          match ws with
          | OPEN => if negb wasAISpeaking then [ClientSend ai_speaking_start] else []
          | _ => []
          end in
        (* Create abort controller for this TTS stream *)
        let '(abortController, m) := newAbortController m in
        let m :=
          setElevenLabsAbortController connectionId (Some abortController) m in
        let outcome :=
          ElevenLabsStreamingClient.streamTextToSpeech elevenlabsApiKey
            (Some textDelta) voice (Some abortController) (aborted m)
            transport in
        match ElevenLabsStreamingClient.result outcome with
        | Return _ =>
            let m :=
              match getState connectionId m with
              | Some s =>
                  writeState connectionId (set_elevenLabsChunkHandler true s) m
              | None => m
              end in
            (m, started ++ ElevenLabsStreamingClient.requests outcome)
        | Throw e =>
            if ElevenLabsStreamingClient.isAbort e
            then (m, started ++ ElevenLabsStreamingClient.requests outcome)
            else (m, started ++ ElevenLabsStreamingClient.requests outcome
                       ++ [ClientSend (error_message "TTS streaming error")])
        end
  end.

(** The ['text_delta'] listener registered by [setupOpenAIHandlers];
    [delta] is [event.delta]. *)
Definition textDeltaHandler (connectionId : string) (delta : option JSText)
    (voice : option string) (ws : ReadyState)
    (elevenlabsApiKey : option string)
    (transport : ElevenLabsStreamingClient.Transport) (now : Z) (m : Memory)
  : Memory * list Effect :=
  let textDelta := default [] delta in
  if negb (blank (Some textDelta))
  then
    (* Update text buffer *)
    let m := addText connectionId textDelta m in
    let wasAISpeaking :=
      match getState connectionId m with
      | Some state => isAISpeaking state
      | None => false
      end in
    let started :=
      match ws with
      | OPEN => if negb wasAISpeaking then [ClientSend ai_speaking_start] else []
      | _ => []
      end in
    (* Stream to ElevenLabs immediately (incremental TTS) *)
    let '(m, effects) :=
      streamTextDeltaToElevenLabs connectionId textDelta voice ws
        elevenlabsApiKey transport now m in
    (m, started ++ effects)
  else (m, []).

End RealtimeServer.

(** ** Concrete inputs used by the examples below *)

Module Scenario.

Import AudioProcessor StateManager.

(** Three bytes: one sample and a dangling byte. *)
Definition threeBytes : Buffer := [x01; x02; x03].

(** User 3 calls consultant 7. *)
Definition conn : string := "3_7_1700000000000".

Definition fresh : Memory := initialize conn 7 3 1700000000000 emptyMemory.

(** The user spoke at 500 and stopped at 1000. *)
Definition stopped : Memory :=
  setUserSpeaking conn false 1000 (setUserSpeaking conn true 500 fresh).

(** The user is speaking, the agent is not. *)
Definition userSpeaking : Memory := setUserSpeaking conn true 500 fresh.

(** The agent is speaking, with a live synthesis stream (controller 4). *)
Definition agentSpeaking : Memory :=
  setElevenLabsAbortController conn (Some 4%nat)
    (setAISpeaking conn true 60 fresh).

(** Two samples, 16384 and -16384: volume 0.5. *)
Definition loudFrame : Buffer := [x00; x40; x00; xc0].

(** Two samples equal to 0. *)
Definition silentFrame : Buffer := [x00; x00; x00; x00].

(** [n] frames, the [i]-th holding the single byte pair [(i, 0)]. *)
Definition numberedFrames (n : nat) : list Buffer :=
  (fun i => [default x00 (Byte.of_nat i); x00]) <$> seq 0 n.

(** A connection attempt whose model socket opens only after 12 seconds. *)
Definition slowModel : RealtimeServer.Collaborators :=
  RealtimeServer.mkCollaborators
    (RealtimeServer.AuthSuccess 3 7)
    (Return (Some (RealtimeServer.mkConsultant (Some "voice-1")
                     (Some "You are a coach."))))
    (Return (Some (RealtimeServer.mkUser (Some "tr"))))
    (Some "sk-test")
    (OpenAIRealtimeClient.OpensAfter 12000)
    "session_1700000000002_abc"
    1700000000000
    1700000000001.

Definition chunk1 : Buffer := [x01; x00].
Definition chunk2 : Buffer := [x02; x00].

(** A synthesis stream cancelled (through controller 4) after its first
    chunk; cancelling makes the stream fail with the cancellation error. *)
Definition cancelledMidStream : ElevenLabsStreamingClient.Transport :=
  ElevenLabsStreamingClient.Responds
    [ElevenLabsStreamingClient.data chunk1;
     ElevenLabsStreamingClient.aborts 4;
     ElevenLabsStreamingClient.data chunk2;
     ElevenLabsStreamingClient.failure ERR_CANCELED].


(** The two code units of "Hi". *)
Definition helloText : JSText := [72; 105]%N.

End Scenario.

(** ** RealtimeServer: the listeners it registers *)

Module RealtimeServerEvents.

Import AudioProcessor StateManager RealtimeServer.

(** The ['response_interrupted'] listener of [setupOpenAIHandlers]. *)
Definition responseInterruptedHandler (connectionId : string) (now : Z)
    (m : Memory) : Memory * list Effect :=
  let m := setAISpeaking connectionId false now m in
  let m := clearTextBuffer connectionId m in
  (m, [ClientSend ai_response_interrupted]).

(** One run of the ['audio_chunk'] listener that
    [streamTextDeltaToElevenLabs] registers: the store afterwards, the chunk
    passed to [ws.send(audioChunk, { binary: true })] if any, and whether the
    listener is still registered. *)
Record ChunkStep : Type := mkChunkStep {
  memoryAfter : Memory;
  sent : option Buffer;
  listening : bool
}.

(** [audioChunkHandler]; [abortController] is the controller of the stream
    the listener was created for, [sendThrows] tells whether [ws.send]
    throws. *)
Definition audioChunkHandler (connectionId : string)
    (abortController : AbortController) (ws : ReadyState) (sendThrows : bool)
    (audioChunk : Buffer) (m : Memory) : ChunkStep :=
  match getState connectionId m with
  | None => mkChunkStep (abort abortController m) None false
  | Some _ =>
      (* Check for barge-in before sending *)
      if shouldBargeIn connectionId m
      then mkChunkStep (abort abortController m) None false
      else
        match ws with
        | OPEN =>
            if sendThrows
            then mkChunkStep (abort abortController m) None false
            else mkChunkStep m (Some audioChunk) true
        | CLOSED | CLOSING => mkChunkStep (abort abortController m) None false
        | CONNECTING => mkChunkStep m None true
        end
  end.

(** What one ['text_delta'] listener of the shared client runs with: the
    connection it was registered for, and the clock and the synthesis
    transport its run meets. *)
Record ListenerRun : Type := mkListenerRun {
  listenerConnection : string;
  listenerVoice : option string;
  listenerSocket : ReadyState;
  listenerTransport : ElevenLabsStreamingClient.Transport;
  listenerNow : Z
}.

(** [OpenAIRealtimeClient.emit('text_delta', event)]: the client is one
    object for all connections, and [emit] calls every registered listener,
    in registration order.  The result is the store once every run has
    ended; the parts of the runs that follow their [await] touch only
    their own entry, so their order does not matter for the store. *)
Definition emitTextDelta (listeners : list ListenerRun) (delta : option JSText)
    (elevenlabsApiKey : option string) (m : Memory) : Memory :=
  foldl
    (fun m l =>
       (textDeltaHandler (listenerConnection l) delta (listenerVoice l)
          (listenerSocket l) elevenlabsApiKey (listenerTransport l)
          (listenerNow l) m).1)
    m listeners.

(** The connection a store call is made for, if any. *)
Definition target (call : Call) : option string :=
  match call with
  | call_initialize c _ _ _ | call_setUserSpeaking c _ _
  | call_setAISpeaking c _ _ | call_setOpenAISessionId c _
  | call_setElevenLabsAbortController c _
  | call_setOpenAIAbortController c _ | call_abortAIResponse c
  | call_addAudioChunk c _ | call_clearAudioBuffer c | call_addText c _
  | call_clearTextBuffer c | call_remove c | call_setEventHandlers c _
  | call_setChunkHandler c _ => Some c
  | call_newAbortController | call_abort _ => None
  end.

End RealtimeServerEvents.

(** ** Further concrete inputs *)

Module Cases.

Import AudioProcessor StateManager RealtimeServer RealtimeServerEvents.

(** A second call, of user 5 to consultant 7. *)
Definition conn2 : string := "5_7_1700000000500".

(** Two connections, both with a new entry. *)
Definition twoCalls : Memory :=
  initialize conn2 7 5 1700000000500 Scenario.fresh.

(** The ['text_delta'] listeners of both connections, in registration
    order. *)
Definition bothListeners : list ListenerRun :=
  [mkListenerRun Scenario.conn (Some "voice-1") OPEN
     (ElevenLabsStreamingClient.Responds []) 600;
   mkListenerRun conn2 (Some "voice-1") OPEN
     (ElevenLabsStreamingClient.Responds []) 601].

(** A connection attempt whose model socket opens after 300 ms. *)
Definition promptModel : Collaborators :=
  mkCollaborators (AuthSuccess 3 7)
    (Return (Some (mkConsultant (Some "voice-1") (Some "You are a coach."))))
    (Return (Some (mkUser (Some "tr"))))
    (Some "sk-test") (OpenAIRealtimeClient.OpensAfter 300)
    "session_1700000000002_abc" 1700000000000 1700000000001.

(** A connection attempt with a token that does not verify. *)
Definition badToken : Collaborators :=
  mkCollaborators (AuthFailure "Invalid token")
    (Return None) (Return None) (Some "sk-test")
    (OpenAIRealtimeClient.OpensAfter 300) "session_1" 1700000000000
    1700000000001.

(** A connection attempt for a consultant the directory does not know. *)
Definition unknownConsultant : Collaborators :=
  mkCollaborators (AuthSuccess 3 7)
    (Return None) (Return None) (Some "sk-test")
    (OpenAIRealtimeClient.OpensAfter 300) "session_1" 1700000000000
    1700000000001.

(** A connection attempt for a consultant without a voice id. *)
Definition voicelessConsultant : Collaborators :=
  mkCollaborators (AuthSuccess 3 7)
    (Return (Some (mkConsultant None (Some "You are a coach."))))
    (Return (Some (mkUser (Some "tr")))) (Some "sk-test")
    (OpenAIRealtimeClient.OpensAfter 300) "session_1" 1700000000000
    1700000000001.

(** A connection attempt whose consultant lookup fails. *)
Definition brokenDirectory : Collaborators :=
  mkCollaborators (AuthSuccess 3 7)
    (Throw (TransportError "ECONNREFUSED")) (Return None) (Some "sk-test")
    (OpenAIRealtimeClient.OpensAfter 300) "session_1" 1700000000000
    1700000000001.

(** The store after the first fragment of a response: the agent speaks,
    controller 0 is stored. *)
Definition afterFirstFragment : Memory :=
  (textDeltaHandler Scenario.conn (Some Scenario.helloText) (Some "voice-1")
     OPEN (Some "xi-key") (ElevenLabsStreamingClient.Responds []) 600
     Scenario.fresh).1.

(** 101 bytes, all zero: 50 samples and a dangling byte. *)
Definition quietOddChunk : Buffer := repeat x00 101.

(** 100 zero bytes followed by 21 bytes of value 127. *)
Definition lateLoudChunk : Buffer := repeat x00 100 ++ repeat x7f 21.

End Cases.

(** * Properties *)

(** ** AudioProcessor: when the volume computation throws *)

Section AudioProcessorFacts.

Import AudioProcessor.

Lemma readInt16LE_inside (buf : Buffer) (i : nat) :
  (S i < length buf)%nat -> returns (readInt16LE buf i).
Proof.
  intros Hlt. unfold readInt16LE.
  destruct (lookup_lt_is_Some_2 buf i) as [first Hfirst]; [lia|].
  destruct (lookup_lt_is_Some_2 buf (S i)) as [last Hlast]; [lia|].
  rewrite Hfirst, Hlast. eexists. reflexivity.
Qed.

Lemma readInt16LE_outside (buf : Buffer) (i : nat) :
  (length buf <= S i)%nat -> readInt16LE buf i = Throw ERR_OUT_OF_RANGE.
Proof.
  intros Hge. unfold readInt16LE.
  rewrite (lookup_ge_None_2 buf (S i)) by lia.
  destruct (buf !! i); reflexivity.
Qed.

(** Reading a sample gives the two's complement value of the two bytes. *)
Example readInt16LE_extremes :
  readInt16LE [x00; x80] 0 = Return (-32768)
  /\ readInt16LE [xff; x7f] 0 = Return 32767
  /\ readInt16LE [xff; xff] 0 = Return (-1)
  /\ readInt16LE [x34; x12; x00] 0 = Return 4660.
Proof. repeat split; reflexivity. Qed.

Lemma loopCount_even (len : nat) :
  Nat.Even len -> (2 * loopCount len = len)%nat.
Proof.
  intros [n ->]. unfold loopCount.
  rewrite Nat.div2_succ_double. reflexivity.
Qed.

Lemma loopCount_odd (len : nat) :
  Nat.Odd len -> (2 * loopCount len = S len)%nat.
Proof.
  intros [n ->]. unfold loopCount.
  replace (S (2 * n + 1)) with (2 * S n)%nat by lia.
  rewrite Nat.div2_double. reflexivity.
Qed.

(** On a whole number of samples every read is in range. *)
Lemma sumOfSquares_whole (buf : Buffer) (k i : nat) (sum : float) :
  (i + 2 * k = length buf)%nat -> returns (sumOfSquares buf k i sum).
Proof.
  revert i sum. induction k as [|k IH]; intros i sum Hlen; simpl.
  - eexists. reflexivity.
  - destruct (readInt16LE_inside buf i) as [sample Hs]; [lia|].
    rewrite Hs. simpl. apply IH. lia.
Qed.

(** With a dangling last byte the loop reaches it and the read throws. *)
Lemma sumOfSquares_dangling (buf : Buffer) (k i : nat) (sum : float) :
  (0 < k)%nat -> (i + 2 * k = S (length buf))%nat ->
  sumOfSquares buf k i sum = Throw ERR_OUT_OF_RANGE.
Proof.
  revert i sum. induction k as [|k IH]; intros i sum Hk Hlen; [lia|].
  simpl. destruct k as [|k].
  - rewrite readInt16LE_outside by lia. reflexivity.
  - destruct (readInt16LE_inside buf i) as [sample Hs]; [lia|].
    rewrite Hs. simpl. apply IH; lia.
Qed.

Lemma calculateRMS_whole (buf : Buffer) :
  Nat.Even (length buf) -> returns (calculateRMS (Some buf)).
Proof.
  intros Heven. unfold calculateRMS.
  destruct (Nat.eqb (length buf) 0); [eexists; reflexivity|].
  destruct (sumOfSquares_whole buf (loopCount (length buf)) 0 0%float)
    as [sum Hsum].
  { rewrite loopCount_even by assumption. reflexivity. }
  rewrite Hsum. eexists. reflexivity.
Qed.

Lemma calculateRMS_dangling (buf : Buffer) :
  Nat.Odd (length buf) -> calculateRMS (Some buf) = Throw ERR_OUT_OF_RANGE.
Proof.
  intros Hodd. unfold calculateRMS.
  destruct (Nat.eqb_spec (length buf) 0) as [Hz|Hnz].
  { destruct Hodd as [n Hn]. lia. }
  rewrite sumOfSquares_dangling; [reflexivity| |].
  - pose proof (loopCount_odd _ Hodd). lia.
  - rewrite loopCount_odd by assumption. reflexivity.
Qed.

Lemma processAudioChunk_returns (audioChunk : option Buffer) (t : float) :
  returns (processAudioChunk audioChunk t).
Proof.
  unfold processAudioChunk. destruct audioChunk as [chunk|].
  - destruct (Nat.eqb (length chunk) 0); [eexists; reflexivity|].
    destruct (calculateRMS (Some chunk)); eexists; reflexivity.
  - eexists. reflexivity.
Qed.

End AudioProcessorFacts.

(** C3, as stated, fails: on a buffer with a dangling last byte
    [calculateRMS] does not return 0, it throws the range error of
    [readInt16LE], and [isAudioAboveThreshold] lets that error through. *)
Lemma calculateRMS_throws_on_dangling_byte :
  Nat.odd (length Scenario.threeBytes) = true
  /\ AudioProcessor.calculateRMS (Some Scenario.threeBytes)
     = Throw ERR_OUT_OF_RANGE
  /\ AudioProcessor.isAudioAboveThreshold (Some Scenario.threeBytes)
       RealtimeServer.silenceThreshold
     = Throw ERR_OUT_OF_RANGE.
Proof. repeat split; reflexivity. Qed.

(** C3, amended.  [calculateRMS] returns 0 for an absent or empty buffer and
    returns a value for every buffer holding a whole number of 16-bit
    samples; on a buffer with a dangling last byte it throws the range
    error, and so does [isAudioAboveThreshold].  [processAudioChunk] never
    throws: it returns silent with volume 0 for an
    absent or empty chunk, and on a dangling byte it catches the error and
    answers from the non-zero bytes among the first 100 (more than 10 of
    them: not silent, volume 0.1; otherwise silent, volume 0).
    [combineBuffers] returns the concatenation of its buffers, in order,
    for every list of buffers, and the empty buffer for none. *)
Theorem audio_volume_degrades_in_processAudioChunk
    (buf : AudioProcessor.Buffer) (t : float) :
  AudioProcessor.calculateRMS None = Return 0%float
  /\ AudioProcessor.calculateRMS (Some []) = Return 0%float
  /\ (Nat.Even (length buf) -> returns (AudioProcessor.calculateRMS (Some buf)))
  /\ (Nat.Odd (length buf) ->
      AudioProcessor.calculateRMS (Some buf) = Throw ERR_OUT_OF_RANGE
      /\ AudioProcessor.isAudioAboveThreshold (Some buf) t
         = Throw ERR_OUT_OF_RANGE
      /\ AudioProcessor.processAudioChunk (Some buf) t
         = Return
             (let hasActivity := Nat.ltb 10 (AudioProcessor.nonZeroCount buf) in
              AudioProcessor.mkAudioInfo (negb hasActivity)
                (if hasActivity then 0x1.999999999999ap-4%float else 0%float) t))
  /\ returns (AudioProcessor.processAudioChunk (Some buf) t)
  /\ AudioProcessor.processAudioChunk None t
     = Return (AudioProcessor.mkAudioInfo true 0%float t)
  /\ AudioProcessor.processAudioChunk (Some []) t
     = Return (AudioProcessor.mkAudioInfo true 0%float t)
  /\ (forall buffers : list AudioProcessor.Buffer,
        AudioProcessor.combineBuffers buffers = concat buffers)
  /\ AudioProcessor.combineBuffers [] = [].
Proof.
  split; [reflexivity|]. split; [reflexivity|].
  split; [apply calculateRMS_whole|].
  split.
  { intros Hodd. split; [apply calculateRMS_dangling; assumption|].
    split.
    { unfold AudioProcessor.isAudioAboveThreshold.
      rewrite calculateRMS_dangling by assumption. reflexivity. }
    unfold AudioProcessor.processAudioChunk.
    destruct (Nat.eqb_spec (length buf) 0) as [Hz|Hnz].
    { destruct Hodd as [n Hn]. lia. }
    rewrite calculateRMS_dangling by assumption. reflexivity. }
  split; [apply processAudioChunk_returns|].
  split; [reflexivity|]. split; [reflexivity|].
  split; [|reflexivity].
  intros [|b buffers]; reflexivity.
Qed.

(** C3 on three bytes: the volume computation throws, the classification
    falls back to the heuristic and reports silence. *)
Lemma audio_volume_degrades_in_processAudioChunk_witness :
  AudioProcessor.calculateRMS (Some Scenario.threeBytes) = Throw ERR_OUT_OF_RANGE
  /\ AudioProcessor.processAudioChunk (Some Scenario.threeBytes)
       RealtimeServer.silenceThreshold
     = Return (AudioProcessor.mkAudioInfo true 0%float
                 RealtimeServer.silenceThreshold).
Proof.
  destruct (audio_volume_degrades_in_processAudioChunk Scenario.threeBytes
              RealtimeServer.silenceThreshold)
    as (_ & _ & _ & Hodd & _).
  destruct Hodd as (Hrms & _ & Hchunk); [exists 1%nat; reflexivity|].
  split; [exact Hrms|exact Hchunk].
Defined.

(** ** StateManager: the store *)

Section StateManagerFacts.

Import AudioProcessor StateManager.

Lemma memory_eta (m : Memory) :
  mkMemory (connections m) (aborted m) (nextController m) = m.
Proof. destruct m; reflexivity. Qed.

Lemma getState_writeState (c : string) (s : ConnectionState) (m : Memory) :
  getState c (writeState c s m) = Some s.
Proof. unfold getState, writeState; simpl. apply lookup_insert_eq. Qed.

Lemma getState_writeState_ne (c c' : string) (s : ConnectionState) (m : Memory) :
  c <> c' -> getState c' (writeState c s m) = getState c' m.
Proof. intros Hne. unfold getState, writeState; simpl. by apply lookup_insert_ne. Qed.

Lemma getState_abort (c : string) (k : nat) (m : Memory) :
  getState c (abort k m) = getState c m.
Proof. reflexivity. Qed.

Lemma writeState_writeState (c : string) (s s' : ConnectionState) (m : Memory) :
  writeState c s (writeState c s' m) = writeState c s m.
Proof.
  unfold writeState, setConnections; simpl. by rewrite insert_insert_eq.
Qed.

Lemma writeState_same (c : string) (s : ConnectionState) (m : Memory) :
  getState c m = Some s -> writeState c s m = m.
Proof.
  unfold getState, writeState, setConnections. intros Hs.
  rewrite insert_id by assumption. apply memory_eta.
Qed.

Lemma initialize_entry (c : string) (consultant user now : Z) (m : Memory) :
  getState c (initialize c consultant user now m)
  = Some (mkConnectionState c consultant user false false None None None
            false None None None [] [] now false false).
Proof. unfold initialize, getState; simpl. apply lookup_insert_eq. Qed.

Lemma initialize_other (c c' : string) (consultant user now : Z) (m : Memory) :
  c <> c' ->
  getState c' (initialize c consultant user now m) = getState c' m.
Proof.
  intros Hne. unfold initialize, getState; simpl. by apply lookup_insert_ne.
Qed.

Lemma aborted_writeState (c : string) (s : ConnectionState) (m : Memory) :
  aborted (writeState c s m) = aborted m.
Proof. reflexivity. Qed.

(** The state that [abortAIResponse] leaves in an existing entry, and the
    controllers it aborts. *)
Lemma abortAIResponse_entry (c : string) (m : Memory) (s : ConnectionState) :
  getState c m = Some s ->
  exists s',
    getState c (abortAIResponse c m) = Some s'
    /\ s' = set_textBuffer [] (set_isAISpeaking false
              (set_openaiAbortController None
                 (set_elevenlabsAbortController None s)))
    /\ aborted (abortAIResponse c m)
       = from_option singleton ∅ (openaiAbortController s)
           ∪ (from_option singleton ∅ (elevenlabsAbortController s)
                ∪ aborted m)
    /\ nextController (abortAIResponse c m) = nextController m
    /\ forall c', c <> c' ->
         getState c' (abortAIResponse c m) = getState c' m.
Proof.
  intros Hs. unfold abortAIResponse. rewrite Hs.
  destruct s as [cid cons uid us ais lu la ss ip sid [ke|] [ko|] ab tb ca eh ch];
    simpl; eexists; (split; [apply getState_writeState|]);
    (split; [reflexivity|]); simpl;
    (split; [rewrite ?(left_id_L ∅ (∪)); reflexivity|]);
    (split; [reflexivity|]);
    intros c' Hne; rewrite getState_writeState_ne by assumption; reflexivity.
Qed.

Lemma abortAIResponse_other (c c' : string) (m : Memory) :
  c <> c' -> getState c' (abortAIResponse c m) = getState c' m.
Proof.
  intros Hne. destruct (getState c m) as [s|] eqn:Hs.
  - destruct (abortAIResponse_entry c m s Hs) as (_ & _ & _ & _ & _ & Hother).
    apply Hother. exact Hne.
  - unfold abortAIResponse. rewrite Hs. reflexivity.
Qed.

Lemma remove_gone (c : string) (m : Memory) : getState c (remove c m) = None.
Proof. unfold remove, getState; simpl. apply lookup_delete_eq. Qed.

Lemma remove_other (c c' : string) (m : Memory) :
  c <> c' -> getState c' (remove c m) = getState c' m.
Proof.
  intros Hne. unfold remove.
  transitivity (getState c'
                  (match getState c m with
                   | Some _ => abortAIResponse c m
                   | None => m
                   end)).
  - unfold getState at 1; simpl. by apply lookup_delete_ne.
  - destruct (getState c m); [by apply abortAIResponse_other|reflexivity].
Qed.

Lemma reachable_perform (call : Call) (m : Memory) :
  reachable m -> reachable (perform call m).
Proof.
  intros [calls ->]. exists (calls ++ [call]).
  rewrite foldl_app. reflexivity.
Qed.

End StateManagerFacts.

Section StateManagerClaims.

Import AudioProcessor StateManager.

Lemma memory_ext (m1 m2 : Memory) :
  (forall c, getState c m1 = getState c m2) ->
  aborted m1 = aborted m2 ->
  nextController m1 = nextController m2 ->
  m1 = m2.
Proof.
  destruct m1 as [c1 a1 n1], m2 as [c2 a2 n2]; unfold getState; simpl.
  intros Hc -> ->. f_equal. apply map_eq. exact Hc.
Qed.

(** C10.  For a connection id with no entry, [getState] gives [null], the
    boolean queries give [false], and every mutating operation, [remove]
    included, returns the store unchanged; none of these paths contains a
    throwing construct. *)
Theorem absent_connection_is_neutral (c : string) (m : Memory) :
  getState c m = None ->
  (forall speaking now, setUserSpeaking c speaking now m = m)
  /\ (forall speaking now, setAISpeaking c speaking now m = m)
  /\ shouldBargeIn c m = false
  /\ (forall threshold now, isSilenceDetected c threshold now m = false)
  /\ abortAIResponse c m = m
  /\ (forall chunk, addAudioChunk c chunk m = m)
  /\ clearAudioBuffer c m = m
  /\ (forall text, addText c text m = m)
  /\ clearTextBuffer c m = m
  /\ (forall sessionId, setOpenAISessionId c sessionId m = m)
  /\ (forall controller, setElevenLabsAbortController c controller m = m)
  /\ (forall controller, setOpenAIAbortController c controller m = m)
  /\ remove c m = m.
Proof.
  intros Habsent.
  unfold setUserSpeaking, setAISpeaking, shouldBargeIn, isSilenceDetected,
    abortAIResponse, addAudioChunk, clearAudioBuffer, addText,
    clearTextBuffer, setOpenAISessionId, setElevenLabsAbortController,
    setOpenAIAbortController, remove.
  rewrite Habsent. repeat split.
  unfold getState in Habsent. unfold setConnections.
  rewrite delete_id by assumption. apply memory_eta.
Qed.

(** C10 at a connection that was created and then removed. *)
Lemma absent_connection_is_neutral_witness :
  getState Scenario.conn (remove Scenario.conn Scenario.agentSpeaking) = None
  /\ abortAIResponse Scenario.conn (remove Scenario.conn Scenario.agentSpeaking)
     = remove Scenario.conn Scenario.agentSpeaking.
Proof.
  split; [reflexivity|].
  apply (absent_connection_is_neutral Scenario.conn
           (remove Scenario.conn Scenario.agentSpeaking)).
  reflexivity.
Defined.

(** C8.  On an existing entry, [abortAIResponse] twice gives the store that
    [abortAIResponse] once gives.  Afterwards the agent is not speaking, the
    text buffer is empty, both controller fields are [null], and every
    controller that was stored has been aborted.  With no stored controller
    no signal changes, and if moreover the agent was not speaking and no
    text was pending the store is unchanged. *)
Theorem abortAIResponse_idempotent (c : string) (m : Memory)
    (s : ConnectionState) :
  getState c m = Some s ->
  abortAIResponse c (abortAIResponse c m) = abortAIResponse c m
  /\ (exists s',
        getState c (abortAIResponse c m) = Some s'
        /\ isAISpeaking s' = false
        /\ textBuffer s' = []
        /\ elevenlabsAbortController s' = None
        /\ openaiAbortController s' = None)
  /\ (forall k,
        elevenlabsAbortController s = Some k \/ openaiAbortController s = Some k ->
        k ∈ aborted (abortAIResponse c m))
  /\ (elevenlabsAbortController s = None ->
      openaiAbortController s = None ->
      aborted (abortAIResponse c m) = aborted m
      /\ (isAISpeaking s = false -> textBuffer s = [] ->
          abortAIResponse c m = m)).
Proof.
  intros Hs.
  destruct (abortAIResponse_entry c m s Hs)
    as (s1 & Hs1 & Hreset1 & Hab1 & Hnext1 & Hother1).
  destruct (abortAIResponse_entry c _ s1 Hs1)
    as (s2 & Hs2 & Hreset2 & Hab2 & Hnext2 & Hother2).
  assert (Hfix : s2 = s1) by (subst s2 s1; destruct s; reflexivity).
  assert (He1 : elevenlabsAbortController s1 = None)
    by (subst s1; destruct s; reflexivity).
  assert (Ho1 : openaiAbortController s1 = None)
    by (subst s1; destruct s; reflexivity).
  split.
  { apply memory_ext.
    - intros c'. destruct (decide (c = c')) as [<-|Hne].
      + rewrite Hs2, Hs1. f_equal. exact Hfix.
      + apply Hother2. exact Hne.
    - rewrite Hab2, He1, Ho1. simpl. by rewrite !(left_id_L ∅ (∪)).
    - exact Hnext2. }
  split.
  { exists s1. split; [exact Hs1|].
    subst s1; destruct s; repeat split; reflexivity. }
  split.
  { intros k [Hk|Hk]; rewrite Hab1, Hk; simpl.
    - apply elem_of_union_r, elem_of_union_l, elem_of_singleton_2. reflexivity.
    - apply elem_of_union_l, elem_of_singleton_2. reflexivity. }
  intros He Ho. rewrite Hab1, He, Ho. simpl.
  split; [by rewrite !(left_id_L ∅ (∪))|].
  intros Hai Htb. apply memory_ext.
  - intros c'. destruct (decide (c = c')) as [<-|Hne].
    + rewrite Hs1, Hs. f_equal. subst s1. destruct s; simpl in *.
      subst. reflexivity.
    + apply Hother1. exact Hne.
  - rewrite Hab1, He, Ho. simpl. by rewrite !(left_id_L ∅ (∪)).
  - exact Hnext1.
Qed.

(** C8 on the entry of a speaking agent with a live synthesis stream. *)
Lemma abortAIResponse_idempotent_witness :
  abortAIResponse Scenario.conn (abortAIResponse Scenario.conn Scenario.agentSpeaking)
  = abortAIResponse Scenario.conn Scenario.agentSpeaking.
Proof.
  refine (proj1 (abortAIResponse_idempotent Scenario.conn Scenario.agentSpeaking
                   _ _)).
  reflexivity.
Defined.

End StateManagerClaims.

Section StoreLifecycleClaims.

Import AudioProcessor StateManager.

(** C7, as stated, fails: [initialize] on an id that already has an entry
    does not fail; the entry of a speaking agent is replaced by a new one. *)
Lemma initialize_replaces_existing_entry :
  isAISpeaking <$> getState Scenario.conn Scenario.agentSpeaking = Some true
  /\ isAISpeaking
       <$> getState Scenario.conn
             (initialize Scenario.conn 7 3 1700000000099 Scenario.agentSpeaking)
     = Some false
  /\ createdAt
       <$> getState Scenario.conn
             (initialize Scenario.conn 7 3 1700000000099 Scenario.agentSpeaking)
     = Some 1700000000099.
Proof. repeat split; reflexivity. Qed.

(** C7, amended.  [initialize] always succeeds: whatever the store held for
    the id, the entry afterwards is the new state (flags false, instants and
    controllers null, buffers empty, [createdAt] the current time); the
    other entries, the controllers and their signals are untouched. *)
Theorem initialize_always_overwrites (c : string) (consultant user now : Z)
    (m : Memory) :
  getState c (initialize c consultant user now m)
  = Some (mkConnectionState c consultant user false false None None None
            false None None None [] [] now false false)
  /\ (forall c', c <> c' ->
        getState c' (initialize c consultant user now m) = getState c' m)
  /\ aborted (initialize c consultant user now m) = aborted m.
Proof.
  split; [apply initialize_entry|]. split; [|reflexivity].
  intros c' Hne. by apply initialize_other.
Qed.

(** On an existing entry [setUserSpeaking(id, false)] stores the current
    time as the start of silence, whatever the entry held. *)
Lemma setUserSpeaking_false_entry (c : string) (now : Z) (m : Memory)
    (s : ConnectionState) :
  getState c m = Some s ->
  getState c (setUserSpeaking c false now m)
  = Some (set_silenceStartTime (Some now) (set_isUserSpeaking false s)).
Proof.
  intros Hs. unfold setUserSpeaking. rewrite Hs. apply getState_writeState.
Qed.

Lemma setUserSpeaking_true_entry (c : string) (now : Z) (m : Memory)
    (s : ConnectionState) :
  getState c m = Some s ->
  getState c (setUserSpeaking c true now m)
  = Some (set_silenceStartTime None
            (set_lastUserAudioTime (Some now) (set_isUserSpeaking true s))).
Proof.
  intros Hs. unfold setUserSpeaking. rewrite Hs. apply getState_writeState.
Qed.

(** C2 on the code.  The user stopped speaking at 1000; a further
    [setUserSpeaking(id, false)] at 5000 moves the start of silence to 5000.
    On a new entry, with no speech before, the same call makes the start of
    silence non-null. *)
Lemma setUserSpeaking_restarts_silence :
  isUserSpeaking <$> getState Scenario.conn Scenario.stopped = Some false
  /\ silenceStartTime <$> getState Scenario.conn Scenario.stopped
     = Some (Some 1000)
  /\ silenceStartTime
       <$> getState Scenario.conn
             (setUserSpeaking Scenario.conn false 5000 Scenario.stopped)
     = Some (Some 5000)
  /\ lastUserAudioTime <$> getState Scenario.conn Scenario.fresh = Some None
  /\ silenceStartTime
       <$> getState Scenario.conn
             (setUserSpeaking Scenario.conn false 1000 Scenario.fresh)
     = Some (Some 1000).
Proof. repeat split; reflexivity. Qed.

End StoreLifecycleClaims.

(** ** The bounded frame buffer *)

Section BoundedBuffer.

Import AudioProcessor StateManager.

Lemma addAudioChunk_entry (c : string) (chunk : Buffer) (m : Memory)
    (s : ConnectionState) :
  getState c m = Some s ->
  getState c (addAudioChunk c chunk m)
  = Some (set_audioBuffer
            (if Nat.ltb capacity (length (audioBuffer s ++ [chunk]))
             then tail (audioBuffer s ++ [chunk])
             else audioBuffer s ++ [chunk]) s).
Proof.
  intros Hs. unfold addAudioChunk. rewrite Hs. apply getState_writeState.
Qed.

Lemma addAudioChunks_snoc (c : string) (frames : list Buffer) (chunk : Buffer)
    (m : Memory) :
  addAudioChunks c (frames ++ [chunk]) m
  = addAudioChunk c chunk (addAudioChunks c frames m).
Proof. unfold addAudioChunks. rewrite foldl_app. reflexivity. Qed.

(** One push followed by the conditional shift keeps the last [capacity]
    elements. *)
Lemma push_shift_keeps_last (l : list Buffer) (chunk : Buffer) :
  let kept := drop (length l - capacity) l in
  (if Nat.ltb capacity (length (kept ++ [chunk]))
   then tail (kept ++ [chunk]) else kept ++ [chunk])
  = drop (length (l ++ [chunk]) - capacity) (l ++ [chunk]).
Proof.
  intros kept. subst kept. unfold capacity.
  rewrite !length_app, length_drop. simpl.
  destruct (Nat.ltb_spec 100 (length l - (length l - 100) + 1)) as [Hfull|Hroom].
  - assert (Hl : (100 <= length l)%nat) by lia.
    replace (length l + 1 - 100)%nat with (length l - 100 + 1)%nat by lia.
    rewrite <- (drop_drop (l ++ [chunk]) 1 (length l - 100)).
    rewrite (drop_app_le l [chunk]) by lia.
    destruct (drop (length l - 100) l ++ [chunk]); reflexivity.
  - replace (length l - 100)%nat with 0%nat by lia.
    replace (length l + 1 - 100)%nat with 0%nat by lia.
    reflexivity.
Qed.

(** After any run of insertions on a buffer within the capacity, the buffer
    is the tail of what was there followed by what was inserted. *)
Lemma addAudioChunks_entry (c : string) (frames : list Buffer) (m : Memory)
    (s : ConnectionState) :
  getState c m = Some s ->
  (length (audioBuffer s) <= capacity)%nat ->
  getState c (addAudioChunks c frames m)
  = Some (set_audioBuffer
            (drop (length (audioBuffer s ++ frames) - capacity)
               (audioBuffer s ++ frames)) s).
Proof.
  intros Hs Hbound. induction frames as [|chunk frames IH] using rev_ind.
  - rewrite app_nil_r. replace (length (audioBuffer s) - capacity)%nat with 0%nat by lia.
    simpl. rewrite Hs. destruct s; reflexivity.
  - rewrite addAudioChunks_snoc.
    rewrite (addAudioChunk_entry _ _ _ _ IH).
    f_equal. destruct s; simpl in *.
    rewrite (push_shift_keeps_last (audioBuffer0 ++ frames) chunk).
    rewrite <- app_assoc. reflexivity.
Qed.

Lemma bounded_writeState (c : string) (s : ConnectionState) (m : Memory) :
  bufferBounded m -> (length (audioBuffer s) <= capacity)%nat ->
  bufferBounded (writeState c s m).
Proof.
  intros Hm Hs c' s'. destruct (decide (c = c')) as [<-|Hne].
  - rewrite getState_writeState. intros [= <-]. exact Hs.
  - rewrite getState_writeState_ne by assumption. apply Hm.
Qed.

Lemma bounded_perform (call : Call) (m : Memory) :
  bufferBounded m -> bufferBounded (perform call m).
Proof.
  intros Hm.
  destruct call as [c consultant user now|c b now|c b now|c sid|c k|c k|c
                   |c chunk|c|c text|c|c| |k|c b|c b]; simpl.
  - intros c' s'. destruct (decide (c = c')) as [<-|Hne].
    + rewrite initialize_entry. intros [= <-]. simpl. unfold capacity. lia.
    + rewrite initialize_other by assumption. apply Hm.
  - unfold setUserSpeaking. destruct (getState c m) as [s|] eqn:Hs; [|exact Hm].
    apply bounded_writeState; [exact Hm|].
    specialize (Hm c s Hs). destruct b, s; exact Hm.
  - unfold setAISpeaking. destruct (getState c m) as [s|] eqn:Hs; [|exact Hm].
    apply bounded_writeState; [exact Hm|].
    specialize (Hm c s Hs). destruct b, s; exact Hm.
  - unfold setOpenAISessionId. destruct (getState c m) as [s|] eqn:Hs; [|exact Hm].
    apply bounded_writeState; [exact Hm|].
    specialize (Hm c s Hs). destruct s; exact Hm.
  - unfold setElevenLabsAbortController.
    destruct (getState c m) as [s|] eqn:Hs; [|exact Hm].
    apply bounded_writeState; [exact Hm|].
    specialize (Hm c s Hs). destruct s; exact Hm.
  - unfold setOpenAIAbortController.
    destruct (getState c m) as [s|] eqn:Hs; [|exact Hm].
    apply bounded_writeState; [exact Hm|].
    specialize (Hm c s Hs). destruct s; exact Hm.
  - intros c' s'. destruct (decide (c = c')) as [<-|Hne].
    + destruct (getState c m) as [s|] eqn:Hs.
      * destruct (abortAIResponse_entry c m s Hs) as (s1 & -> & -> & _).
        intros [= <-]. specialize (Hm c s Hs). destruct s; exact Hm.
      * unfold abortAIResponse. rewrite Hs. apply Hm.
    + rewrite abortAIResponse_other by assumption. apply Hm.
  - destruct (getState c m) as [s|] eqn:Hs.
    + intros c' s'. destruct (decide (c = c')) as [<-|Hne].
      * rewrite (addAudioChunk_entry c chunk m s Hs). intros [= <-].
        specialize (Hm c s Hs). destruct s; simpl in *.
        destruct (Nat.ltb_spec capacity (length (audioBuffer0 ++ [chunk])))
          as [Hfull|Hroom]; [|exact Hroom].
        rewrite length_app in *. simpl in *.
        destruct audioBuffer0; simpl in *; [unfold capacity in *; lia|].
        rewrite length_app. simpl. lia.
      * unfold addAudioChunk. rewrite Hs.
        rewrite getState_writeState_ne by assumption. apply Hm.
    + unfold addAudioChunk. rewrite Hs. exact Hm.
  - unfold clearAudioBuffer. destruct (getState c m) as [s|] eqn:Hs; [|exact Hm].
    apply bounded_writeState; [exact Hm|]. destruct s; simpl. unfold capacity. lia.
  - unfold addText. destruct (getState c m) as [s|] eqn:Hs; [|exact Hm].
    apply bounded_writeState; [exact Hm|].
    specialize (Hm c s Hs). destruct s; exact Hm.
  - unfold clearTextBuffer. destruct (getState c m) as [s|] eqn:Hs; [|exact Hm].
    apply bounded_writeState; [exact Hm|].
    specialize (Hm c s Hs). destruct s; exact Hm.
  - intros c' s'. destruct (decide (c = c')) as [<-|Hne].
    + rewrite remove_gone. discriminate.
    + rewrite remove_other by assumption. apply Hm.
  - exact Hm.
  - exact Hm.
  - destruct (getState c m) as [s|] eqn:Hs; [|exact Hm].
    apply bounded_writeState; [exact Hm|].
    specialize (Hm c s Hs). destruct s; exact Hm.
  - destruct (getState c m) as [s|] eqn:Hs; [|exact Hm].
    apply bounded_writeState; [exact Hm|].
    specialize (Hm c s Hs). destruct s; exact Hm.
Qed.

Lemma reachable_bounded (m : Memory) : reachable m -> bufferBounded m.
Proof.
  intros [calls ->]. induction calls as [|call calls IH] using rev_ind.
  - intros c s. discriminate.
  - rewrite foldl_app. simpl. apply bounded_perform. exact IH.
Qed.

(** C9.  In every store the server can reach, for a connection with an
    entry, after more than [capacity] insertions the buffer holds exactly
    [capacity] frames, the last ones inserted, in insertion order; and after
    each insertion of the run the buffer is within the capacity. *)
Theorem audio_buffer_keeps_most_recent (c : string) (frames : list Buffer)
    (m : Memory) (s : ConnectionState) :
  reachable m ->
  getState c m = Some s ->
  (capacity < length frames)%nat ->
  (exists s',
     getState c (addAudioChunks c frames m) = Some s'
     /\ audioBuffer s' = drop (length frames - capacity) frames
     /\ length (audioBuffer s') = capacity)
  /\ (forall n, exists sn,
        getState c (addAudioChunks c (take n frames) m) = Some sn
        /\ (length (audioBuffer sn) <= capacity)%nat).
Proof.
  intros Hreach Hs Hmany.
  pose proof (reachable_bounded m Hreach c s Hs) as Hbound. split.
  - eexists. split; [apply (addAudioChunks_entry c frames m s Hs Hbound)|].
    destruct s; simpl in *.
    rewrite length_app.
    replace (length audioBuffer0 + length frames - capacity)%nat
      with (length audioBuffer0 + (length frames - capacity))%nat by lia.
    rewrite drop_app_add. split; [reflexivity|].
    rewrite length_drop. lia.
  - intros n. eexists.
    split; [apply (addAudioChunks_entry c (take n frames) m s Hs Hbound)|].
    destruct s; simpl in *. rewrite length_drop. lia.
Qed.

(** C9 on a new connection that receives 103 frames: frames 3 to 102
    remain. *)
Lemma audio_buffer_keeps_most_recent_witness :
  exists s',
    getState Scenario.conn
      (addAudioChunks Scenario.conn (Scenario.numberedFrames 103) Scenario.fresh)
    = Some s'
    /\ audioBuffer s' = drop 3 (Scenario.numberedFrames 103)
    /\ length (audioBuffer s') = 100%nat.
Proof.
  refine (proj1 (audio_buffer_keeps_most_recent Scenario.conn
                   (Scenario.numberedFrames 103) Scenario.fresh _ _ _ _)).
  - exists [call_initialize Scenario.conn 7 3 1700000000000]. reflexivity.
  - reflexivity.
  - vm_compute. lia.
Defined.

End BoundedBuffer.

(** ** One audio frame: barge-in *)

Section AudioFrameStep.

Import AudioProcessor StateManager RealtimeServer.

Lemma shouldBargeIn_entry (c : string) (m : Memory) (s : ConnectionState) :
  getState c m = Some s ->
  shouldBargeIn c m = isUserSpeaking s && isAISpeaking s.
Proof. intros Hs. unfold shouldBargeIn. rewrite Hs. reflexivity. Qed.

Lemma isSilenceDetected_speaking (c : string) (threshold now : Z) (m : Memory)
    (s : ConnectionState) :
  getState c m = Some s -> silenceStartTime s = None ->
  isSilenceDetected c threshold now m = false.
Proof.
  intros Hs Hnone. unfold isSilenceDetected. rewrite Hs, Hnone. reflexivity.
Qed.

Lemma handleAudioChunk_silent (c : string) (chunk : Buffer)
    (session : option ReadyState) (now1 now2 : Z) (m : Memory)
    (state : ConnectionState) (info : AudioInfo) :
  getState c m = Some state ->
  processAudioChunk (Some chunk) silenceThreshold = Return info ->
  isSilent info = true ->
  handleAudioChunk c chunk session now1 now2 m
  = Return
      (let m2 := setUserSpeaking c false now1 (addAudioChunk c chunk m) in
       if isSilenceDetected c silenceDurationMs now2 m2
       then (clearAudioBuffer c m2,
             if isOpen session then [ModelSend input_audio_buffer_commit] else [])
       else (m2, [])).
Proof.
  intros Hs Hinfo Hsilent.
  unfold handleAudioChunk. rewrite Hs, Hinfo. simpl. rewrite Hsilent. simpl.
  pose proof (addAudioChunk_entry c chunk m state Hs) as H1.
  pose proof (setUserSpeaking_false_entry c now1 _ _ H1) as H2.
  rewrite (shouldBargeIn_entry _ _ _ H2). simpl.
  destruct (isSilenceDetected c silenceDurationMs now2 _);
    destruct session as [[]|]; reflexivity.
Qed.

Lemma handleAudioChunk_audible (c : string) (chunk : Buffer)
    (session : option ReadyState) (now1 now2 : Z) (m : Memory)
    (state : ConnectionState) (info : AudioInfo) :
  getState c m = Some state ->
  processAudioChunk (Some chunk) silenceThreshold = Return info ->
  isSilent info = false ->
  handleAudioChunk c chunk session now1 now2 m
  = Return
      (let m2 := setUserSpeaking c true now1 (addAudioChunk c chunk m) in
       if isAISpeaking state
       then (abortAIResponse c m2,
             if isOpen session
             then [ModelSend response_cancel; ClientSend barge_in;
                   ModelSend (input_audio_buffer_append chunk)]
             else [ClientSend barge_in])
       else (m2,
             if isOpen session
             then [ModelSend (input_audio_buffer_append chunk)] else [])).
Proof.
  intros Hs Hinfo Haudible.
  unfold handleAudioChunk. rewrite Hs, Hinfo. simpl. rewrite Haudible. simpl.
  pose proof (addAudioChunk_entry c chunk m state Hs) as H1.
  pose proof (setUserSpeaking_true_entry c now1 _ _ H1) as H2.
  rewrite (shouldBargeIn_entry _ _ _ H2). simpl.
  destruct (isAISpeaking state) eqn:Hai.
  - destruct (abortAIResponse_entry c _ _ H2) as (s3 & H3 & Hreset & _).
    rewrite (isSilenceDetected_speaking c _ now2 _ s3 H3)
      by (subst s3; reflexivity).
    destruct session as [[]|]; reflexivity.
  - rewrite (isSilenceDetected_speaking c _ now2 _ _ H2) by reflexivity.
    destruct session as [[]|]; reflexivity.
Qed.

Lemma clearAudioBuffer_entry (c : string) (m : Memory) (s : ConnectionState) :
  getState c m = Some s ->
  getState c (clearAudioBuffer c m) = Some (set_audioBuffer [] s).
Proof.
  intros Hs. unfold clearAudioBuffer. rewrite Hs. apply getState_writeState.
Qed.

(** C1, as stated, fails when the model session is not open: the frame
    observes the barge-in condition, the agent output is cancelled and the
    client is notified, but no [response.cancel] goes to the model. *)
Lemma barge_in_with_closed_model_session :
  isAISpeaking <$> getState Scenario.conn Scenario.agentSpeaking = Some true
  /\ shouldBargeIn Scenario.conn
       (setUserSpeaking Scenario.conn true 100
          (addAudioChunk Scenario.conn Scenario.loudFrame Scenario.agentSpeaking))
     = true
  /\ exists m',
       handleAudioChunk Scenario.conn Scenario.loudFrame (Some CLOSED) 100 100
         Scenario.agentSpeaking
       = Return (m', [ClientSend barge_in]).
Proof.
  split; [reflexivity|]. split; [reflexivity|].
  eexists. vm_compute. reflexivity.
Qed.

(** C1, amended.  For a connection with a state entry, the processing of
    one audio frame returns, and at its end the user-speaking and
    agent-speaking flags are not both true.  The step observes
    [shouldBargeIn] true exactly when the frame is not silent and the agent
    was speaking; then, within the step, [abortAIResponse] runs (the
    stored controllers are aborted and cleared, the text buffer is emptied,
    the agent is no longer speaking), the [barge_in] message is sent to the
    client, and [response.cancel] is sent to the model when the model session
    is open; with the session not open no message goes to the model. *)
Theorem barge_in_within_frame_step (c : string) (chunk : Buffer)
    (session : option ReadyState) (now1 now2 : Z) (m : Memory)
    (state : ConnectionState) :
  getState c m = Some state ->
  exists info m' effects state',
    processAudioChunk (Some chunk) silenceThreshold = Return info
    /\ handleAudioChunk c chunk session now1 now2 m = Return (m', effects)
    /\ getState c m' = Some state'
    /\ isUserSpeaking state' && isAISpeaking state' = false
    /\ shouldBargeIn c
         (setUserSpeaking c (negb (isSilent info)) now1
            (addAudioChunk c chunk m))
       = negb (isSilent info) && isAISpeaking state
    /\ (shouldBargeIn c
          (setUserSpeaking c (negb (isSilent info)) now1
             (addAudioChunk c chunk m)) = true ->
        isUserSpeaking state' = true
        /\ isAISpeaking state' = false
        /\ textBuffer state' = []
        /\ elevenlabsAbortController state' = None
        /\ openaiAbortController state' = None
        /\ (forall k,
              elevenlabsAbortController state = Some k
              \/ openaiAbortController state = Some k ->
              k ∈ aborted m')
        /\ effects
           = if isOpen session
             then [ModelSend response_cancel; ClientSend barge_in;
                   ModelSend (input_audio_buffer_append chunk)]
             else [ClientSend barge_in]).
Proof.
  intros Hs.
  destruct (processAudioChunk_returns (Some chunk) silenceThreshold)
    as [info Hinfo].
  pose proof (addAudioChunk_entry c chunk m state Hs) as H1.
  exists info. destruct (isSilent info) eqn:Hsilent; cbn [negb].
  - pose proof (setUserSpeaking_false_entry c now1 _ _ H1) as H2.
    rewrite (handleAudioChunk_silent _ _ _ _ _ _ _ _ Hs Hinfo Hsilent).
    rewrite (shouldBargeIn_entry _ _ _ H2). simpl.
    destruct (isSilenceDetected c silenceDurationMs now2 _).
    + do 3 eexists. split; [exact Hinfo|]. split; [reflexivity|].
      split; [apply (clearAudioBuffer_entry _ _ _ H2)|].
      split; [reflexivity|]. split; [reflexivity|]. discriminate.
    + do 3 eexists. split; [exact Hinfo|]. split; [reflexivity|].
      split; [exact H2|]. split; [reflexivity|]. split; [reflexivity|]. discriminate.
  - pose proof (setUserSpeaking_true_entry c now1 _ _ H1) as H2.
    rewrite (handleAudioChunk_audible _ _ _ _ _ _ _ _ Hs Hinfo Hsilent).
    rewrite (shouldBargeIn_entry _ _ _ H2). simpl.
    destruct (isAISpeaking state) eqn:Hai.
    + destruct (abortAIResponse_entry c _ _ H2)
        as (s3 & H3 & Hreset & Hab & _).
      do 3 eexists. split; [exact Hinfo|]. split; [reflexivity|].
      split; [exact H3|]. subst s3. simpl.
      split; [reflexivity|]. split; [reflexivity|]. intros _.
      repeat (split; [reflexivity|]). split; [|reflexivity].
      intros k Hk. rewrite Hab. simpl. destruct Hk as [Hk|Hk]; rewrite Hk; simpl.
      * apply elem_of_union_r, elem_of_union_l, elem_of_singleton_2. reflexivity.
      * apply elem_of_union_l, elem_of_singleton_2. reflexivity.
    + do 3 eexists. split; [exact Hinfo|]. split; [reflexivity|].
      split; [exact H2|]. simpl. rewrite Hai.
      split; [reflexivity|]. split; [reflexivity|]. discriminate.
Qed.

(** C1 on a loud frame arriving while the agent speaks, model session open. *)
Lemma barge_in_within_frame_step_witness :
  exists m' state',
    handleAudioChunk Scenario.conn Scenario.loudFrame (Some OPEN) 100 101
      Scenario.agentSpeaking
    = Return (m',
              [ModelSend response_cancel; ClientSend barge_in;
               ModelSend (input_audio_buffer_append Scenario.loudFrame)])
    /\ getState Scenario.conn m' = Some state'
    /\ isAISpeaking state' = false
    /\ 4%nat ∈ aborted m'.
Proof.
  destruct (barge_in_within_frame_step Scenario.conn Scenario.loudFrame
              (Some OPEN) 100 101 Scenario.agentSpeaking _ eq_refl)
    as (info & m' & effects & state' & Hinfo & Hrun & Hstate & _ & _ & Hbarge).
  assert (Hi : info = mkAudioInfo false 0.5%float silenceThreshold)
    by (vm_compute in Hinfo; injection Hinfo as <-; reflexivity).
  subst info.
  destruct (Hbarge ltac:(vm_compute; reflexivity))
    as (_ & Hai & _ & _ & _ & Hab & Heff).
  exists m', state'. rewrite Hrun, Heff.
  split; [reflexivity|]. split; [exact Hstate|]. split; [exact Hai|].
  apply Hab. left. reflexivity.
Defined.

(** A frame step takes a reachable store to a reachable store. *)
Lemma handleAudioChunk_reachable (c : string) (chunk : Buffer)
    (session : option ReadyState) (now1 now2 : Z) (m m' : Memory)
    (effects : list Effect) :
  reachable m ->
  handleAudioChunk c chunk session now1 now2 m = Return (m', effects) ->
  reachable m'.
Proof.
  intros Hreach Hrun.
  destruct (getState c m) as [state|] eqn:Hs.
  - destruct (processAudioChunk_returns (Some chunk) silenceThreshold)
      as [info Hinfo].
    assert (H1 : reachable (addAudioChunk c chunk m))
      by apply (reachable_perform (call_addAudioChunk c chunk) m Hreach).
    destruct (isSilent info) eqn:Hsilent.
    + rewrite (handleAudioChunk_silent _ _ _ _ _ _ _ _ Hs Hinfo Hsilent)
        in Hrun.
      cbv zeta in Hrun.
      assert (H2 : reachable (setUserSpeaking c false now1
                                (addAudioChunk c chunk m)))
        by apply (reachable_perform (call_setUserSpeaking c false now1) _ H1).
      destruct (isSilenceDetected c silenceDurationMs now2 _);
        injection Hrun as <- _; [|exact H2].
      apply (reachable_perform (call_clearAudioBuffer c) _ H2).
    + rewrite (handleAudioChunk_audible _ _ _ _ _ _ _ _ Hs Hinfo Hsilent)
        in Hrun.
      cbv zeta in Hrun.
      assert (H2 : reachable (setUserSpeaking c true now1
                                (addAudioChunk c chunk m)))
        by apply (reachable_perform (call_setUserSpeaking c true now1) _ H1).
      destruct (isAISpeaking state); injection Hrun as <- _; [|exact H2].
      apply (reachable_perform (call_abortAIResponse c) _ H2).
  - unfold handleAudioChunk in Hrun. rewrite Hs in Hrun.
    injection Hrun as <- _. exact Hreach.
Qed.

(** X1.  Within one frame step the start of silence is the instant read by
    [setUserSpeaking]; unless a whole [silenceDurationMs] passes between the
    two clock reads of the step, the step never commits the audio input. *)
Lemma frame_step_never_commits (c : string) (chunk : Buffer)
    (session : option ReadyState) (now1 now2 : Z) (m : Memory)
    (state : ConnectionState) :
  getState c m = Some state ->
  now2 - now1 < silenceDurationMs ->
  exists m' effects,
    handleAudioChunk c chunk session now1 now2 m = Return (m', effects)
    /\ ModelSend input_audio_buffer_commit ∉ effects.
Proof.
  intros Hs Hfast.
  destruct (processAudioChunk_returns (Some chunk) silenceThreshold)
    as [info Hinfo].
  pose proof (addAudioChunk_entry c chunk m state Hs) as H1.
  destruct (isSilent info) eqn:Hsilent.
  - pose proof (setUserSpeaking_false_entry c now1 _ _ H1) as H2.
    rewrite (handleAudioChunk_silent _ _ _ _ _ _ _ _ Hs Hinfo Hsilent).
    cbv zeta. unfold isSilenceDetected at 1. rewrite H2. simpl.
    replace (silenceDurationMs <=? now2 - now1) with false
      by (symmetry; apply Z.leb_gt; exact Hfast).
    destruct (now1 =? 0); do 2 eexists; (split; [reflexivity|]);
      apply not_elem_of_nil.
  - rewrite (handleAudioChunk_audible _ _ _ _ _ _ _ _ Hs Hinfo Hsilent).
    cbv zeta.
    destruct (isAISpeaking state), (isOpen session); do 2 eexists;
      (split; [reflexivity|]);
      rewrite ?not_elem_of_cons; repeat split; try discriminate;
      apply not_elem_of_nil.
Qed.

End AudioFrameStep.

(** ** Connection setup and its failure path *)

Section ConnectionSetup.

Import AudioProcessor StateManager RealtimeServer.

Lemma cleanupConnection_gone (c : string) (session : option ReadyState)
    (m : Memory) :
  getState c (cleanupConnection c session m).1 = None
  /\ forall c', c <> c' ->
       getState c' (cleanupConnection c session m).1 = getState c' m.
Proof.
  unfold cleanupConnection.
  destruct (getState c m) as [s|] eqn:Hs;
    [destruct (_elevenLabsChunkHandler s)|]; simpl;
    (split; [apply remove_gone|]); intros c' Hne;
    rewrite remove_other, abortAIResponse_other by assumption;
    rewrite ?getState_writeState_ne by assumption; reflexivity.
Qed.

Lemma cleanupConnection_new_entry (c : string) (consultant user now : Z)
    (m : Memory) :
  (cleanupConnection c None (initialize c consultant user now m)).2 = [].
Proof.
  unfold cleanupConnection.
  rewrite initialize_entry. reflexivity.
Qed.

Lemma awaitOpen_timeout (behaviour : OpenAIRealtimeClient.SocketBehaviour) :
  OpenAIRealtimeClient.timesOut behaviour ->
  OpenAIRealtimeClient.awaitOpen behaviour = Throw (Error "Connection timeout").
Proof.
  destruct behaviour as [ms|ms e|]; simpl; intros Hlate; [| |reflexivity];
    (replace (ms <? OpenAIRealtimeClient.connectionTimeoutMs) with false
       by (symmetry; apply Z.ltb_ge; exact Hlate)); reflexivity.
Qed.

Lemma createSession_timeout (apiKey : option string)
    (options : OpenAIRealtimeClient.SessionOptions)
    (behaviour : OpenAIRealtimeClient.SocketBehaviour) (generatedId : string) :
  truthy apiKey = true ->
  OpenAIRealtimeClient.timesOut behaviour ->
  OpenAIRealtimeClient.createSession apiKey options behaviour generatedId
  = Throw (Error "Connection timeout").
Proof.
  intros Hkey Hlate. unfold OpenAIRealtimeClient.createSession.
  rewrite Hkey, (awaitOpen_timeout _ Hlate). reflexivity.
Qed.

Lemma setupFailed_leaves_no_entry (c : string) (ws : ReadyState) (e : JsError)
    (m : Memory) :
  exists m' effects,
    setupFailed c ws e m = (m', effects, Failed c e)
    /\ getState c m' = None
    /\ (forall c', c <> c' -> getState c' m' = getState c' m)
    /\ effects
       = match ws with
         | OPEN => [ClientClose 1011 "Internal server error"]
         | _ => []
         end ++ (cleanupConnection c None m).2.
Proof.
  unfold setupFailed.
  destruct (cleanupConnection_gone c None m) as [Hgone Hother].
  destruct (cleanupConnection c None m) as [m' cleaned]; simpl in *.
  exists m'. eexists. repeat split; assumption.
Qed.

(** C4.  When authentication and the consultant lookup succeed and the
    model socket neither opens nor fails before the ten second timer fires,
    [createSession] is rejected with the error "Connection timeout", the
    setup ends in its failure path (closing the client socket with code 1011
    when it is open), and afterwards the store has no entry for the
    connection id; the entries of other connections are as before. *)
Theorem setup_timeout_leaves_no_entry (env : Collaborators) (ws : ReadyState)
    (m : Memory) (user consultant : Z) (c : Consultant) (u : option User) :
  authenticateConnection env = AuthSuccess user consultant ->
  getConsultantById env = Return (Some c) ->
  truthy (voiceId c) = true ->
  getUserById env = Return u ->
  truthy (openaiApiKey env) = true ->
  OpenAIRealtimeClient.timesOut (modelSocket env) ->
  let connectionId := makeConnectionId user consultant (connectedAt env) in
  (forall options generatedId,
     OpenAIRealtimeClient.createSession (openaiApiKey env) options
       (modelSocket env) generatedId
     = Throw (Error "Connection timeout"))
  /\ exists m' effects,
       handleConnection env ws m
       = (m', effects, Failed connectionId (Error "Connection timeout"))
       /\ getState connectionId m' = None
       /\ (forall c', connectionId <> c' -> getState c' m' = getState c' m)
       /\ effects
          = match ws with
            | OPEN => [ClientClose 1011 "Internal server error"]
            | _ => []
            end.
Proof.
  intros Hauth Hconsultant Hvoice Huser Hkey Hlate connectionId.
  split; [intros; by apply createSession_timeout|].
  unfold handleConnection.
  rewrite Hauth, Hconsultant, Hvoice, Huser. simpl.
  rewrite createSession_timeout by assumption.
  fold connectionId.
  destruct (setupFailed_leaves_no_entry connectionId ws
              (Error "Connection timeout")
              (initialize connectionId consultant user (initializedAt env) m))
    as (m' & effects & Hrun & Hgone & Hother & Heff).
  exists m', effects. split; [exact Hrun|]. split; [exact Hgone|].
  split.
  - intros c' Hne. rewrite Hother by assumption.
    apply initialize_other. exact Hne.
  - rewrite Heff, cleanupConnection_new_entry. apply app_nil_r.
Qed.

(** C4 on a model socket that opens after twelve seconds. *)
Lemma setup_timeout_leaves_no_entry_witness :
  exists m' effects,
    handleConnection Scenario.slowModel OPEN StateManager.emptyMemory
    = (m', effects, Failed Scenario.conn (Error "Connection timeout"))
    /\ getState Scenario.conn m' = None.
Proof.
  destruct (setup_timeout_leaves_no_entry Scenario.slowModel OPEN
              StateManager.emptyMemory 3 7 _ _ eq_refl eq_refl eq_refl eq_refl
              eq_refl)
    as (_ & m' & effects & Hrun & Hgone & _).
  - simpl. unfold OpenAIRealtimeClient.connectionTimeoutMs. lia.
  - exists m', effects. split; [exact Hrun|exact Hgone].
Defined.

End ConnectionSetup.

(** ** Speech synthesis: blank text and cancellation *)

Section SynthesisClaims.

Import AudioProcessor StateManager RealtimeServer ElevenLabsStreamingClient.










(** Signals only ever go from not aborted to aborted. *)
Lemma signalAborted_mono (abortController : option AbortController)
    (k : nat) (signals : gset nat) :
  signalAborted abortController signals = true ->
  signalAborted abortController ({[k]} ∪ signals) = true.
Proof.
  destruct abortController as [c|]; simpl; [|discriminate].
  rewrite !bool_decide_eq_true. set_solver.
Qed.

(** Once the signal is aborted the handlers emit nothing but [stream_end]. *)
Lemma deliver_after_abort (abortController : option AbortController)
    (events : list StreamEvent) (signals : gset nat) :
  signalAborted abortController signals = true ->
  Forall (fun e => e = stream_end) (deliver abortController events signals).
Proof.
  revert signals. induction events as [|ev events IH]; intros signals Hab;
    simpl; [constructor|].
  destruct ev as [chunk| |e|k]; unfold onData, onError, onEnd;
    rewrite ?Hab; simpl.
  - by apply IH.
  - constructor; [reflexivity|by apply IH].
  - by apply IH.
  - apply IH. by apply signalAborted_mono.
Qed.

(** The stream handlers never emit [stream_aborted]. *)
Lemma deliver_never_stream_aborted (abortController : option AbortController)
    (events : list StreamEvent) (signals : gset nat) :
  stream_aborted ∉ deliver abortController events signals.
Proof.
  revert signals. induction events as [|ev events IH]; intros signals;
    simpl; [apply not_elem_of_nil|].
  destruct ev as [chunk| |e|k]; unfold onData, onError, onEnd;
    try destruct (signalAborted abortController signals); simpl;
    rewrite ?not_elem_of_cons; repeat split; try discriminate; apply IH.
Qed.

Lemma deliver_app (abortController : option AbortController)
    (before after : list StreamEvent) (signals : gset nat) :
  deliver abortController (before ++ after) signals
  = deliver abortController before signals
      ++ deliver abortController after (signalsAfter before signals).
Proof.
  revert signals. induction before as [|ev before IH]; intros signals;
    simpl; [reflexivity|].
  destruct ev; rewrite IH, ?app_assoc; reflexivity.
Qed.

(** X13.  Cancelling through the stream's own controller: everything
    emitted after the cancellation is at most [stream_end]; in particular
    no audio chunk and no error. *)
Lemma no_chunk_after_cancellation (k : nat) (before after : list StreamEvent)
    (signals : gset nat) :
  exists rest,
    deliver (Some k) (before ++ aborts k :: after) signals
    = deliver (Some k) before signals ++ rest
    /\ Forall (fun e => e = stream_end) rest.
Proof.
  eexists. split; [apply deliver_app|].
  simpl. apply deliver_after_abort. simpl.
  apply bool_decide_eq_true. set_solver.
Qed.

(** X14.  A request whose signal is aborted before the response arrives,
    or that is rejected with the cancellation error, emits [stream_aborted]
    once and resolves. *)
Lemma cancel_before_response (apiKey voice : option string) (text : JSText)
    (abortController : option AbortController) (signals : gset nat)
    (transport : Transport) :
  truthy apiKey = true -> truthy voice = true -> blank (Some text) = false ->
  signalAborted abortController signals = true
  \/ transport = Rejects ERR_CANCELED ->
  streamTextToSpeech apiKey (Some text) voice abortController signals transport
  = mkOutcome (Return tt) [SynthesisRequest text (default "" voice)]
      [stream_aborted].
Proof.
  intros Hkey Hvoice Htext Hcancel. unfold streamTextToSpeech, axiosPost.
  rewrite Hkey, Hvoice, Htext. simpl.
  destruct Hcancel as [->| ->]; [reflexivity|].
  destruct (signalAborted abortController signals); reflexivity.
Qed.

(** C5 on the code.  The stream is cancelled through its controller after
    the first chunk: the second chunk and the stream error are dropped, and
    the only event emitted is the first chunk; no [stream_aborted] follows. *)
Lemma cancel_during_stream_is_silent :
  streamTextToSpeech (Some "xi-key") (Some Scenario.helloText)
    (Some "voice-1") (Some 4%nat) ∅ Scenario.cancelledMidStream
  = mkOutcome (Return tt) [SynthesisRequest Scenario.helloText "voice-1"]
      [audio_chunk Scenario.chunk1].
Proof. vm_compute. reflexivity. Qed.

(** A text fragment that arrives while the user is speaking and the agent
    is not: the barge-in test of [streamTextDeltaToElevenLabs] is negative,
    the agent is marked speaking, and this step ends with both flags true. *)
Remark text_fragment_step_sets_both_flags :
  isUserSpeaking <$> getState Scenario.conn Scenario.userSpeaking = Some true
  /\ isAISpeaking <$> getState Scenario.conn Scenario.userSpeaking = Some false
  /\ (fun s => (isUserSpeaking s, isAISpeaking s))
       <$> getState Scenario.conn
             (textDeltaHandler Scenario.conn (Some Scenario.helloText)
                (Some "voice-1") OPEN (Some "xi-key") (Responds []) 600
                Scenario.userSpeaking).1
     = Some (true, true).
Proof. repeat split; vm_compute; reflexivity. Qed.

End SynthesisClaims.

(** * Further properties *)

(** ** The store: isolation, keys, silence *)

Section StoreExtras.

Import AudioProcessor StateManager RealtimeServer RealtimeServerEvents.

(** X1 on a silent frame, two seconds after the user stopped. *)
Lemma frame_step_never_commits_witness :
  exists m' effects,
    handleAudioChunk Scenario.conn Scenario.silentFrame (Some OPEN) 3000 3001
      Scenario.stopped
    = Return (m', effects)
    /\ ModelSend input_audio_buffer_commit ∉ effects.
Proof.
  refine (frame_step_never_commits Scenario.conn Scenario.silentFrame
            (Some OPEN) 3000 3001 Scenario.stopped _ eq_refl _).
  unfold silenceDurationMs. lia.
Defined.

(** X2.  After [setUserSpeaking c false] at instant [stoppedAt],
    [isSilenceDetected] answers true exactly when [stoppedAt] is not 0 (the
    test [!state.silenceStartTime] takes the instant 0 for "no silence") and
    at least the threshold has passed since; after [setUserSpeaking c true]
    it answers false. *)
Theorem silence_detected_after_threshold (c : string) (m : Memory)
    (s : ConnectionState) (stoppedAt now threshold : Z) :
  getState c m = Some s ->
  isSilenceDetected c threshold now (setUserSpeaking c false stoppedAt m)
  = negb (stoppedAt =? 0) && (threshold <=? now - stoppedAt)
  /\ isSilenceDetected c threshold now (setUserSpeaking c true stoppedAt m)
     = false.
Proof.
  intros Hs. unfold isSilenceDetected.
  rewrite (setUserSpeaking_false_entry c stoppedAt m s Hs).
  rewrite (setUserSpeaking_true_entry c stoppedAt m s Hs). simpl.
  split; [|reflexivity].
  destruct (stoppedAt =? 0); simpl; [reflexivity|].
  apply andb_true_r.
Qed.

(** X2 one second, and one millisecond less, after the user stopped. *)
Lemma silence_detected_after_threshold_witness :
  isSilenceDetected Scenario.conn 1000 2000
    (setUserSpeaking Scenario.conn false 1000 Scenario.userSpeaking) = true
  /\ isSilenceDetected Scenario.conn 1000 1999
       (setUserSpeaking Scenario.conn false 1000 Scenario.userSpeaking) = false.
Proof.
  split.
  - refine (eq_trans (proj1 (silence_detected_after_threshold Scenario.conn
              Scenario.userSpeaking _ 1000 2000 1000 eq_refl)) _).
    reflexivity.
  - refine (eq_trans (proj1 (silence_detected_after_threshold Scenario.conn
              Scenario.userSpeaking _ 1000 1999 1000 eq_refl)) _).
    reflexivity.
Defined.

(** A store call leaves the entries of all other connections as they are. *)
Lemma perform_other (call : Call) (c' : string) (m : Memory) :
  target call <> Some c' ->
  getState c' (perform call m) = getState c' m.
Proof.
  intros Hne.
  destruct call as [c consultant user now|c b now|c b now|c sid|c k|c k|c
                   |c chunk|c|c text|c|c| |k|c b|c b]; simpl in *;
    try (assert (Hc : c <> c') by congruence).
  - by apply initialize_other.
  - unfold setUserSpeaking. destruct (getState c m) as [s|]; [|reflexivity].
    by apply getState_writeState_ne.
  - unfold setAISpeaking. destruct (getState c m) as [s|]; [|reflexivity].
    by apply getState_writeState_ne.
  - unfold setOpenAISessionId. destruct (getState c m) as [s|]; [|reflexivity].
    by apply getState_writeState_ne.
  - unfold setElevenLabsAbortController.
    destruct (getState c m) as [s|]; [|reflexivity].
    by apply getState_writeState_ne.
  - unfold setOpenAIAbortController.
    destruct (getState c m) as [s|]; [|reflexivity].
    by apply getState_writeState_ne.
  - by apply abortAIResponse_other.
  - unfold addAudioChunk. destruct (getState c m) as [s|]; [|reflexivity].
    by apply getState_writeState_ne.
  - unfold clearAudioBuffer. destruct (getState c m) as [s|]; [|reflexivity].
    by apply getState_writeState_ne.
  - unfold addText. destruct (getState c m) as [s|]; [|reflexivity].
    by apply getState_writeState_ne.
  - unfold clearTextBuffer. destruct (getState c m) as [s|]; [|reflexivity].
    by apply getState_writeState_ne.
  - by apply remove_other.
  - reflexivity.
  - reflexivity.
  - destruct (getState c m) as [s|]; [|reflexivity].
    by apply getState_writeState_ne.
  - destruct (getState c m) as [s|]; [|reflexivity].
    by apply getState_writeState_ne.
Qed.

(** X5.  A sequence of store calls, none of them made for connection
    [c'], leaves the entry of [c'] as it is (present or absent). *)
Theorem store_calls_are_isolated (calls : list Call) (c' : string) (m : Memory) :
  Forall (fun call => target call <> Some c') calls ->
  getState c' (foldl (fun m call => perform call m) m calls) = getState c' m.
Proof.
  intros Hall. revert m. induction Hall as [|call calls Hcall _ IH]; intros m.
  - reflexivity.
  - simpl. rewrite IH. by apply perform_other.
Qed.

(** X5 for four calls on the first of two connections. *)
Lemma store_calls_are_isolated_witness :
  getState Cases.conn2
    (foldl (fun m call => perform call m) Cases.twoCalls
       [call_setAISpeaking Scenario.conn true 60;
        call_addText Scenario.conn Scenario.helloText;
        call_abortAIResponse Scenario.conn;
        call_remove Scenario.conn])
  = getState Cases.conn2 Cases.twoCalls.
Proof.
  apply (store_calls_are_isolated
           [call_setAISpeaking Scenario.conn true 60;
            call_addText Scenario.conn Scenario.helloText;
            call_abortAIResponse Scenario.conn;
            call_remove Scenario.conn] Cases.conn2 Cases.twoCalls).
  repeat constructor; discriminate.
Defined.

Lemma keyed_perform (call : Call) (m : Memory) :
  (forall c s, getState c m = Some s -> connectionId s = c) ->
  forall c s, getState c (perform call m) = Some s -> connectionId s = c.
Proof.
  intros Hm c' s'.
  destruct (decide (target call = Some c')) as [Ht|Hne];
    [|rewrite perform_other by assumption; apply Hm].
  destruct call as [c consultant user now|c b now|c b now|c sid|c k|c k|c
                   |c chunk|c|c text|c|c| |k|c b|c b]; simpl in *;
    try discriminate; injection Ht as ->.
  - rewrite initialize_entry. intros [= <-]. reflexivity.
  - unfold setUserSpeaking. destruct (getState c' m) as [s|] eqn:Hs; [|congruence].
    rewrite getState_writeState. intros [= <-].
    specialize (Hm c' s Hs). destruct b, s; exact Hm.
  - unfold setAISpeaking. destruct (getState c' m) as [s|] eqn:Hs; [|congruence].
    rewrite getState_writeState. intros [= <-].
    specialize (Hm c' s Hs). destruct b, s; exact Hm.
  - unfold setOpenAISessionId. destruct (getState c' m) as [s|] eqn:Hs; [|congruence].
    rewrite getState_writeState. intros [= <-].
    specialize (Hm c' s Hs). destruct s; exact Hm.
  - unfold setElevenLabsAbortController.
    destruct (getState c' m) as [s|] eqn:Hs; [|congruence].
    rewrite getState_writeState. intros [= <-].
    specialize (Hm c' s Hs). destruct s; exact Hm.
  - unfold setOpenAIAbortController.
    destruct (getState c' m) as [s|] eqn:Hs; [|congruence].
    rewrite getState_writeState. intros [= <-].
    specialize (Hm c' s Hs). destruct s; exact Hm.
  - destruct (getState c' m) as [s|] eqn:Hs.
    + destruct (abortAIResponse_entry c' m s Hs) as (s1 & -> & -> & _).
      intros [= <-]. specialize (Hm c' s Hs). destruct s; exact Hm.
    + unfold abortAIResponse. rewrite Hs. congruence.
  - unfold addAudioChunk. destruct (getState c' m) as [s|] eqn:Hs; [|congruence].
    rewrite getState_writeState. intros [= <-].
    specialize (Hm c' s Hs). destruct s; exact Hm.
  - unfold clearAudioBuffer. destruct (getState c' m) as [s|] eqn:Hs; [|congruence].
    rewrite getState_writeState. intros [= <-].
    specialize (Hm c' s Hs). destruct s; exact Hm.
  - unfold addText. destruct (getState c' m) as [s|] eqn:Hs; [|congruence].
    rewrite getState_writeState. intros [= <-].
    specialize (Hm c' s Hs). destruct s; exact Hm.
  - unfold clearTextBuffer. destruct (getState c' m) as [s|] eqn:Hs; [|congruence].
    rewrite getState_writeState. intros [= <-].
    specialize (Hm c' s Hs). destruct s; exact Hm.
  - rewrite remove_gone. discriminate.
  - destruct (getState c' m) as [s|] eqn:Hs; [|congruence].
    rewrite getState_writeState. intros [= <-].
    specialize (Hm c' s Hs). destruct s; exact Hm.
  - destruct (getState c' m) as [s|] eqn:Hs; [|congruence].
    rewrite getState_writeState. intros [= <-].
    specialize (Hm c' s Hs). destruct s; exact Hm.
Qed.

(** X6.  In every store the server can reach, the [connectionId] field
    of an entry is the key the entry is stored under. *)
Theorem reachable_entries_are_keyed (m : Memory) (c : string)
    (s : ConnectionState) :
  reachable m -> getState c m = Some s ->
  connectionId s = c.
Proof.
  intros [calls ->]. revert c s.
  induction calls as [|call calls IH] using rev_ind.
  - intros c s. discriminate.
  - rewrite foldl_app. simpl. apply keyed_perform. exact IH.
Qed.

(** X6 on the store of the speaking agent. *)
Lemma reachable_entries_are_keyed_witness :
  connectionId <$> getState Scenario.conn Scenario.agentSpeaking
  = Some Scenario.conn.
Proof.
  destruct (getState Scenario.conn Scenario.agentSpeaking) as [s|] eqn:Hs;
    [|vm_compute in Hs; discriminate].
  simpl. f_equal.
  apply (reachable_entries_are_keyed Scenario.agentSpeaking Scenario.conn s);
    [|exact Hs].
  exists [call_initialize Scenario.conn 7 3 1700000000000;
          call_setAISpeaking Scenario.conn true 60;
          call_setElevenLabsAbortController Scenario.conn (Some 4%nat)].
  reflexivity.
Defined.

(** X7.  [initialize] followed by [remove] on an id that had no entry
    gives back the store as it was: entries, abort signals and all. *)
Theorem create_then_remove_restores (c : string) (consultant user now : Z)
    (m : Memory) :
  getState c m = None ->
  remove c (initialize c consultant user now m) = m.
Proof.
  intros Habsent. apply memory_ext.
  - intros c'. destruct (decide (c = c')) as [<-|Hne].
    + rewrite remove_gone. symmetry. exact Habsent.
    + rewrite remove_other, initialize_other by assumption. reflexivity.
  - unfold remove. rewrite initialize_entry. simpl.
    destruct (abortAIResponse_entry c _ _
                (initialize_entry c consultant user now m))
      as (s1 & _ & _ & -> & _). simpl.
    by rewrite !(left_id_L ∅ (∪)).
  - unfold remove. rewrite initialize_entry. simpl.
    destruct (abortAIResponse_entry c _ _
                (initialize_entry c consultant user now m))
      as (s1 & _ & _ & _ & -> & _). reflexivity.
Qed.

(** X7 for a second call beside a running one. *)
Lemma create_then_remove_restores_witness :
  remove Cases.conn2
    (initialize Cases.conn2 7 5 1700000000500 Scenario.agentSpeaking)
  = Scenario.agentSpeaking.
Proof.
  apply (create_then_remove_restores Cases.conn2 7 5 1700000000500
           Scenario.agentSpeaking).
  vm_compute. reflexivity.
Defined.

End StoreExtras.

(** ** Synthesis requests and their streams *)

Section SynthesisExtras.

Import AudioProcessor StateManager RealtimeServer RealtimeServerEvents.
Import ElevenLabsStreamingClient.

(** X14 for a controller aborted before the request. *)
Lemma cancel_before_response_witness :
  streamTextToSpeech (Some "xi-key") (Some Scenario.helloText)
    (Some "voice-1") (Some 4%nat) {[4%nat]}
    (Responds [data Scenario.chunk1; end_of_stream])
  = mkOutcome (Return tt) [SynthesisRequest Scenario.helloText "voice-1"]
      [stream_aborted].
Proof.
  apply (cancel_before_response (Some "xi-key") (Some "voice-1")
           Scenario.helloText (Some 4%nat) {[4%nat]}
           (Responds [data Scenario.chunk1; end_of_stream]));
    [reflexivity|reflexivity|reflexivity|left; reflexivity].
Defined.

(** X15.  Once the request has been sent with a signal that was not
    aborted and the response has arrived, [streamTextToSpeech] never emits
    [stream_aborted], whatever the stream then delivers (cancellations
    included). *)
Theorem established_stream_never_emits_stream_aborted
    (apiKey voice : option string) (text : option JSText)
    (abortController : option AbortController) (signals : gset nat)
    (events : list StreamEvent) :
  signalAborted abortController signals = false ->
  Forall (fun e => e <> stream_aborted)
    (emitted (streamTextToSpeech apiKey text voice abortController signals
                (Responds events))).
Proof.
  intros Hlive. unfold streamTextToSpeech, axiosPost. rewrite Hlive.
  destruct (truthy apiKey), (truthy voice), (blank text); simpl;
    try constructor.
  apply Forall_forall. intros e He ->.
  by apply (deliver_never_stream_aborted abortController events signals).
Qed.

(** X15 on the stream cancelled after its first chunk. *)
Lemma established_stream_never_emits_stream_aborted_witness :
  Forall (fun e => e <> stream_aborted)
    (emitted (streamTextToSpeech (Some "xi-key") (Some Scenario.helloText)
                (Some "voice-1") (Some 4%nat) ∅ Scenario.cancelledMidStream)).
Proof.
  apply (established_stream_never_emits_stream_aborted (Some "xi-key")
           (Some "voice-1") (Some Scenario.helloText) (Some 4%nat) ∅).
  reflexivity.
Defined.

(** X16.  A request that fails for another reason than a cancellation is
    rethrown to the caller with nothing emitted; the same failure on the
    response stream is emitted as an [error] event. *)
Theorem transport_failure_is_raised (apiKey voice : option string)
    (text : JSText) (abortController : option AbortController)
    (signals : gset nat) (e : JsError) :
  truthy apiKey = true -> truthy voice = true -> blank (Some text) = false ->
  signalAborted abortController signals = false ->
  isAbort e = false ->
  streamTextToSpeech apiKey (Some text) voice abortController signals
    (Rejects e)
  = mkOutcome (Throw e) [SynthesisRequest text (default "" voice)] []
  /\ emitted (streamTextToSpeech apiKey (Some text) voice abortController
                signals (Responds [failure e]))
     = [error e].
Proof.
  intros Hkey Hvoice Htext Hlive Hhard.
  unfold streamTextToSpeech, axiosPost.
  rewrite Hkey, Hvoice, Htext, Hlive. simpl. rewrite Hhard.
  unfold onError. rewrite ?Hlive. split; reflexivity.
Qed.

(** X16 for a rejected request. *)
Lemma transport_failure_is_raised_witness :
  streamTextToSpeech (Some "xi-key") (Some Scenario.helloText)
    (Some "voice-1") (Some 4%nat) ∅ (Rejects (TransportError "429"))
  = mkOutcome (Throw (TransportError "429"))
      [SynthesisRequest Scenario.helloText "voice-1"] [].
Proof.
  apply (transport_failure_is_raised (Some "xi-key") (Some "voice-1")
           Scenario.helloText (Some 4%nat) ∅ (TransportError "429"));
    reflexivity.
Defined.

(** X17.  [streamTextToSpeech] posts a request exactly when the API key
    and the voice id are set and the text is not blank, and then exactly
    one; the key is tested first, then the voice id; a call that posts
    nothing emits nothing. *)
Theorem synthesis_request_needs_valid_arguments (apiKey voice : option string)
    (text : option JSText) (abortController : option AbortController)
    (signals : gset nat) (transport : Transport) :
  let outcome :=
    streamTextToSpeech apiKey text voice abortController signals transport in
  requests outcome
  = (if truthy apiKey && truthy voice && negb (blank text)
     then [SynthesisRequest (default [] text) (default "" voice)]
     else [])
  /\ (truthy apiKey = false ->
      result outcome = Throw (Error "ElevenLabs API key not configured"))
  /\ (truthy apiKey = true -> truthy voice = false ->
      result outcome = Throw (Error "Voice ID is required"))
  /\ (truthy apiKey && truthy voice && negb (blank text) = false ->
      emitted outcome = []).
Proof.
  unfold streamTextToSpeech.
  destruct (truthy apiKey), (truthy voice), (blank text); simpl;
    repeat split; try reflexivity; try discriminate.
  all: destruct (axiosPost abortController signals transport) as [e|events];
    [destruct (isAbort e)|]; reflexivity.
Qed.

(** X18.  After [abortAIResponse] (and also after [remove]) the stream
    that runs under the controller stored in [elevenlabsAbortController]
    emits no audio chunk and no error any more: at most [stream_end]. *)
Theorem barge_in_silences_stream (c : string) (m : Memory)
    (s : ConnectionState) (k : nat) (events : list StreamEvent) :
  getState c m = Some s ->
  elevenlabsAbortController s = Some k ->
  Forall (fun e => e = stream_end)
    (deliver (Some k) events (aborted (abortAIResponse c m)))
  /\ Forall (fun e => e = stream_end)
       (deliver (Some k) events (aborted (remove c m))).
Proof.
  intros Hs Hk.
  destruct (abortAIResponse_entry c m s Hs) as (s1 & _ & _ & Hab & _).
  assert (Hin : signalAborted (Some k) (aborted (abortAIResponse c m)) = true).
  { simpl. apply bool_decide_eq_true. rewrite Hab, Hk. simpl.
    apply elem_of_union_r, elem_of_union_l, elem_of_singleton_2. reflexivity. }
  split; [by apply deliver_after_abort|].
  apply deliver_after_abort. unfold remove. rewrite Hs. exact Hin.
Qed.

(** X18 for the stream of controller 4. *)
Lemma barge_in_silences_stream_witness :
  Forall (fun e => e = stream_end)
    (deliver (Some 4%nat) [data Scenario.chunk1; end_of_stream]
       (aborted (abortAIResponse Scenario.conn Scenario.agentSpeaking))).
Proof.
  refine (proj1 (barge_in_silences_stream Scenario.conn Scenario.agentSpeaking
                   _ 4%nat [data Scenario.chunk1; end_of_stream]
                   eq_refl eq_refl)).
Defined.

End SynthesisExtras.

(** ** Opening the model session *)

Section SessionExtras.

Import OpenAIRealtimeClient.

(** X9.  [createSession] resolves exactly when the API key is configured
    and the socket opens before the 10 s timer; it then returns the open
    socket with the generated session id and has sent one [session.update].
    Without a key it throws the configuration error, and a socket error
    before the timer is the error thrown. *)
Theorem createSession_succeeds_iff_opened_in_time (apiKey : option string)
    (options : SessionOptions) (behaviour : SocketBehaviour)
    (generatedId : string) :
  (returns (createSession apiKey options behaviour generatedId)
   <-> truthy apiKey = true
       /\ exists ms, behaviour = OpensAfter ms /\ ms < connectionTimeoutMs)
  /\ (truthy apiKey = false ->
      createSession apiKey options behaviour generatedId
      = Throw (Error "OPENAI_API_KEY is not configured"))
  /\ (forall session effects,
        createSession apiKey options behaviour generatedId
        = Return (session, effects) ->
        session = mkSession OPEN generatedId
        /\ effects = [ModelSend (session_update (configuredInstructions options))])
  /\ (forall ms e,
        truthy apiKey = true -> behaviour = FailsAfter ms e ->
        ms < connectionTimeoutMs ->
        createSession apiKey options behaviour generatedId = Throw e).
Proof.
  unfold createSession, awaitOpen.
  destruct (truthy apiKey); simpl.
  - destruct behaviour as [ms|ms e|]; simpl.
    + destruct (Z.ltb_spec ms connectionTimeoutMs) as [Hlt|Hge]; simpl.
      * split; [split|].
        -- intros _. split; [reflexivity|]. exists ms. split; [reflexivity|lia].
        -- intros _. eexists. reflexivity.
        -- split; [discriminate|]. split; [|discriminate].
           intros session effects [= <- <-]. split; reflexivity.
      * split; [split|].
        -- intros [a Ha]. discriminate.
        -- intros [_ (ms' & [= <-] & Hlt)]. lia.
        -- split; [discriminate|]. split; discriminate.
    + split; [split|].
      * destruct (ms <? connectionTimeoutMs); intros [a Ha]; discriminate.
      * intros [_ (ms' & Heq & _)]. discriminate.
      * split; [discriminate|]. split.
        -- destruct (ms <? connectionTimeoutMs); discriminate.
        -- intros ms' e' _ [= <- <-] Hlt.
           replace (ms <? connectionTimeoutMs) with true
             by (symmetry; apply Z.ltb_lt; exact Hlt).
           reflexivity.
    + split; [split|].
      * intros [a Ha]. discriminate.
      * intros [_ (ms' & Heq & _)]. discriminate.
      * split; [discriminate|]. split; discriminate.
  - split; [split|].
    + intros [a Ha]. discriminate.
    + intros [Hk _]. discriminate.
    + split; [reflexivity|]. split; discriminate.
Qed.

End SessionExtras.

(** ** Connection set-up and clean-up *)

Section SessionHelpers.
Import OpenAIRealtimeClient.
Lemma createSession_succeeds_or_not (apiKey : option string)
    (options : SessionOptions) (behaviour : SocketBehaviour)
    (generatedId : string) (session : Session) (effects : list Effect) :
  createSession apiKey options behaviour generatedId = Return (session, effects) ->
  (exists ms, behaviour = OpensAfter ms /\ ms < connectionTimeoutMs)
  /\ session = mkSession OPEN generatedId
  /\ effects = [ModelSend (session_update (configuredInstructions options))].
Proof.
  unfold createSession, awaitOpen.
  destruct (truthy apiKey); simpl; [|discriminate].
  destruct behaviour as [ms|ms e|]; simpl; [| |discriminate].
  - destruct (Z.ltb_spec ms connectionTimeoutMs) as [Hlt|Hge]; simpl;
      [|discriminate].
    intros [= <- <-]. split; [|split; reflexivity].
    exists ms. split; [reflexivity|exact Hlt].
  - destruct (ms <? connectionTimeoutMs); discriminate.
Qed.
End SessionHelpers.

Section SetupExtras.

Import AudioProcessor StateManager RealtimeServer RealtimeServerEvents.

Lemma abortAIResponse_absent (c : string) (m : Memory) :
  getState c m = None -> abortAIResponse c m = m.
Proof. intros Hs. unfold abortAIResponse. rewrite Hs. reflexivity. Qed.

Lemma remove_absent (c : string) (m : Memory) :
  getState c m = None -> remove c m = m.
Proof.
  intros Hs. unfold remove. rewrite Hs. unfold getState in Hs.
  unfold setConnections. rewrite delete_id by assumption. apply memory_eta.
Qed.

Lemma aborted_remove (c : string) (m : Memory) :
  aborted (remove c m) = aborted (abortAIResponse c m).
Proof.
  unfold remove. destruct (getState c m) eqn:Hs; simpl; [reflexivity|].
  by rewrite abortAIResponse_absent.
Qed.

(** X8.  [cleanupConnection] removes the entry of its connection and no
    other, aborts both stored controllers, closes the model socket exactly
    when one is given and it is open, and running it again changes nothing
    in the store. *)
Theorem cleanupConnection_releases (c : string) (session : option ReadyState)
    (m : Memory) :
  let m' := (cleanupConnection c session m).1 in
  let effects := (cleanupConnection c session m).2 in
  getState c m' = None
  /\ (forall c', c <> c' -> getState c' m' = getState c' m)
  /\ (forall s k,
        getState c m = Some s ->
        elevenlabsAbortController s = Some k \/ openaiAbortController s = Some k ->
        k ∈ aborted m')
  /\ (ModelClose ∈ effects <-> session = Some OPEN)
  /\ (cleanupConnection c session m').1 = m'.
Proof.
  cbv zeta.
  destruct (cleanupConnection_gone c session m) as [Hgone Hother].
  split; [exact Hgone|]. split; [exact Hother|]. split; [|split].
  - intros s k Hs Hk. unfold cleanupConnection. rewrite Hs.
    assert (Hin : forall m0 s0,
              getState c m0 = Some s0 ->
              elevenlabsAbortController s0 = elevenlabsAbortController s ->
              openaiAbortController s0 = openaiAbortController s ->
              k ∈ aborted (remove c (abortAIResponse c m0))).
    { intros m0 s0 Hs0 He Ho.
      destruct (abortAIResponse_entry c m0 s0 Hs0) as (s1 & Hs1 & _ & Hab & _).
      destruct (abortAIResponse_entry c _ s1 Hs1) as (s2 & _ & _ & Hab2 & _).
      rewrite aborted_remove, Hab2, Hab, He, Ho.
      apply elem_of_union_r, elem_of_union_r.
      destruct Hk as [Hk|Hk]; rewrite Hk; simpl.
      - apply elem_of_union_r, elem_of_union_l, elem_of_singleton_2.
        reflexivity.
      - apply elem_of_union_l, elem_of_singleton_2. reflexivity. }
    destruct (_elevenLabsChunkHandler s) eqn:Hch; simpl.
    + apply (Hin _ _ (getState_writeState c _ m)); destruct s; reflexivity.
    + apply (Hin _ _ Hs); reflexivity.
  - unfold cleanupConnection.
    destruct (getState c m) as [s|];
      [destruct (_elevenLabsChunkHandler s), (_eventHandlers s)|];
      destruct session as [[]|]; simpl;
      rewrite ?elem_of_cons, ?elem_of_nil; split; intros H;
      repeat (destruct H as [H|H]); try discriminate; try reflexivity;
      try contradiction; tauto.
  - set (m' := (cleanupConnection c session m).1) in *.
    unfold cleanupConnection at 1. rewrite Hgone. simpl.
    rewrite (abortAIResponse_absent c m' Hgone).
    destruct session as [session|]; simpl; apply (remove_absent c m' Hgone).
Qed.

(** How [handleConnection] ends, in terms of the collaborators. *)
Lemma handleConnection_outcome (env : Collaborators) (ws : ReadyState)
    (m m' : Memory) (effects : list Effect) (outcome : Setup) :
  handleConnection env ws m = (m', effects, outcome) ->
  match outcome with
  | Refused reason => m' = m /\ effects = [ClientClose 1008 reason]
  | Failed c e =>
      exists user consultant,
        authenticateConnection env = AuthSuccess user consultant
        /\ c = makeConnectionId user consultant (connectedAt env)
        /\ getState c m' = None
        /\ (forall c', c <> c' -> getState c' m' = getState c' m)
        /\ exists rest,
             effects
             = match ws with
               | OPEN => [ClientClose 1011 "Internal server error"]
               | _ => []
               end ++ rest
  | Established c =>
      exists user consultant,
        authenticateConnection env = AuthSuccess user consultant
        /\ c = makeConnectionId user consultant (connectedAt env)
        /\ getState c m'
           = Some (mkConnectionState c consultant user false false None None
                     None false (Some (generatedSessionId env)) None None
                     [] [] (initializedAt env) true false)
        /\ (forall c', c <> c' -> getState c' m' = getState c' m)
        /\ aborted m' = aborted m
        /\ (exists ms,
              modelSocket env = OpenAIRealtimeClient.OpensAfter ms
              /\ ms < OpenAIRealtimeClient.connectionTimeoutMs)
        /\ exists instructions,
             effects
             = [ModelSend (session_update instructions);
                ClientSend (connection_success c consultant)]
  end.
Proof.
  unfold handleConnection.
  destruct (authenticateConnection env) as [error|user consultant] eqn:Hauth.
  { intros [= <- <- <-]. split; reflexivity. }
  set (c := makeConnectionId user consultant (connectedAt env)).
  assert (Hfail : forall e m0,
            (forall c', c <> c' -> getState c' m0 = getState c' m) ->
            setupFailed c ws e m0 = (m', effects, outcome) ->
            match outcome with
            | Refused reason => m' = m /\ effects = [ClientClose 1008 reason]
            | Failed c0 e0 =>
                exists user0 consultant0,
                  AuthSuccess user consultant = AuthSuccess user0 consultant0
                  /\ c0 = makeConnectionId user0 consultant0 (connectedAt env)
                  /\ getState c0 m' = None
                  /\ (forall c', c0 <> c' -> getState c' m' = getState c' m)
                  /\ exists rest,
                       effects
                       = match ws with
                         | OPEN => [ClientClose 1011 "Internal server error"]
                         | _ => []
                         end ++ rest
            | Established _ => False
            end).
  { intros e m0 Hm0 Hrun.
    destruct (setupFailed_leaves_no_entry c ws e m0)
      as (m1 & eff1 & Hrun1 & Hgone & Hother & Heff).
    rewrite Hrun1 in Hrun. injection Hrun as <- <- <-.
    exists user, consultant. split; [reflexivity|]. split; [reflexivity|].
    split; [exact Hgone|]. split.
    - intros c' Hne. rewrite Hother by assumption. by apply Hm0.
    - eexists. exact Heff. }
  destruct (getConsultantById env) as [[consultantInfo|]|e] eqn:Hcons.
  - destruct (truthy (voiceId consultantInfo)) eqn:Hvoice; simpl.
    + destruct (getUserById env) as [u|e] eqn:Huser.
      * destruct (OpenAIRealtimeClient.createSession _ _ _ _)
          as [[session configured]|e] eqn:Hsession.
        -- intros [= <- <- <-].
           destruct (createSession_succeeds_or_not _ _ _ _ _ _ Hsession)
             as (Hopen & -> & ->).
           exists user, consultant. split; [reflexivity|]. split; [reflexivity|].
           fold c. simpl.
           unfold setupOpenAIHandlers, setOpenAISessionId.
           rewrite initialize_entry, getState_writeState. simpl.
           split; [apply getState_writeState|].
           split.
           { intros c' Hne.
             rewrite !getState_writeState_ne by assumption.
             by apply initialize_other. }
           split; [reflexivity|]. split; [exact Hopen|].
           eexists. reflexivity.
        -- intros Hrun. apply (Hfail e _ (fun c' Hne =>
                                 initialize_other c c' _ _ _ m Hne)) in Hrun.
           destruct outcome; try exact Hrun; contradiction.
      * intros Hrun. apply (Hfail e _ (fun c' Hne =>
                               initialize_other c c' _ _ _ m Hne)) in Hrun.
        destruct outcome; try exact Hrun; contradiction.
    + intros [= <- <- <-]. split; reflexivity.
  - intros [= <- <- <-]. split; reflexivity.
  - intros Hrun. apply (Hfail e m (fun _ _ => eq_refl)) in Hrun.
    destruct outcome; try exact Hrun; contradiction.
Qed.

End SetupExtras.

(** ** Frame steps and set-up outcomes *)

Section FrameHelpers.
Import AudioProcessor StateManager RealtimeServer RealtimeServerEvents.

Lemma nextController_writeState (c : string) (s : ConnectionState)
    (m : Memory) : nextController (writeState c s m) = nextController m.
Proof. reflexivity. Qed.

Lemma frame_exists (c : string) (chunk : Buffer)
    (session : option ReadyState) (now1 now2 : Z) (m : Memory)
    (state : ConnectionState) :
  getState c m = Some state ->
  exists m' effects state',
    handleAudioChunk c chunk session now1 now2 m = Return (m', effects)
    /\ getState c m' = Some state'
    /\ nextController m' = nextController m.
Proof.
  intros Hs.
  destruct (processAudioChunk_returns (Some chunk) silenceThreshold)
    as [info Hinfo].
  pose proof (addAudioChunk_entry c chunk m state Hs) as H1.
  assert (N1 : nextController (addAudioChunk c chunk m) = nextController m)
    by (unfold addAudioChunk; rewrite Hs; reflexivity).
  destruct (isSilent info) eqn:Hsilent.
  - pose proof (setUserSpeaking_false_entry c now1 _ _ H1) as H2.
    assert (N2 : nextController (setUserSpeaking c false now1
                                   (addAudioChunk c chunk m))
                 = nextController m)
      by (unfold setUserSpeaking; rewrite H1; exact N1).
    rewrite (handleAudioChunk_silent _ _ _ _ _ _ _ _ Hs Hinfo Hsilent).
    cbv zeta.
    destruct (isSilenceDetected c silenceDurationMs now2 _).
    + do 3 eexists. split; [reflexivity|].
      split; [apply (clearAudioBuffer_entry _ _ _ H2)|].
      unfold clearAudioBuffer. rewrite H2. exact N2.
    + do 3 eexists. split; [reflexivity|]. split; [exact H2|exact N2].
  - pose proof (setUserSpeaking_true_entry c now1 _ _ H1) as H2.
    assert (N2 : nextController (setUserSpeaking c true now1
                                   (addAudioChunk c chunk m))
                 = nextController m)
      by (unfold setUserSpeaking; rewrite H1; exact N1).
    rewrite (handleAudioChunk_audible _ _ _ _ _ _ _ _ Hs Hinfo Hsilent).
    cbv zeta.
    destruct (isAISpeaking state).
    + destruct (abortAIResponse_entry c _ _ H2)
        as (s3 & H3 & _ & _ & N3 & _).
      do 3 eexists. split; [reflexivity|]. split; [exact H3|].
      rewrite N3. exact N2.
    + do 3 eexists. split; [reflexivity|]. split; [exact H2|exact N2].
Qed.
End FrameHelpers.

Section ServerStepExtras.

Import AudioProcessor StateManager RealtimeServer RealtimeServerEvents.
Import ElevenLabsStreamingClient.

(** X10.  [handleConnection] refuses a connection in exactly three cases:
    the authentication fails (the reason is its error), the consultant
    lookup finds nothing, or the consultant has no voice id.  In each of
    them the store is left untouched and the only effect is closing the
    client socket with code 1008 and the reason; every other set-up ends
    established or failed. *)
Theorem refused_setup_creates_nothing (env : Collaborators) (ws : ReadyState)
    (m : Memory) :
  (forall error,
     authenticateConnection env = AuthFailure error ->
     handleConnection env ws m = (m, [ClientClose 1008 error], Refused error))
  /\ (forall user consultant,
        authenticateConnection env = AuthSuccess user consultant ->
        getConsultantById env = Return None ->
        handleConnection env ws m
        = (m, [ClientClose 1008 "Consultant not found"],
           Refused "Consultant not found"))
  /\ (forall user consultant info,
        authenticateConnection env = AuthSuccess user consultant ->
        getConsultantById env = Return (Some info) ->
        truthy (voiceId info) = false ->
        handleConnection env ws m
        = (m, [ClientClose 1008 "Consultant voice ID not configured"],
           Refused "Consultant voice ID not configured"))
  /\ (forall m' effects reason,
        handleConnection env ws m = (m', effects, Refused reason) ->
        m' = m
        /\ effects = [ClientClose 1008 reason]
        /\ (authenticateConnection env = AuthFailure reason
            \/ (exists user consultant,
                  authenticateConnection env = AuthSuccess user consultant
                  /\ (getConsultantById env = Return None
                      /\ reason = "Consultant not found"
                      \/ exists info,
                           getConsultantById env = Return (Some info)
                           /\ truthy (voiceId info) = false
                           /\ reason
                              = "Consultant voice ID not configured")))).
Proof.
  split; [|split; [|split]].
  - intros error Hauth. unfold handleConnection. rewrite Hauth. reflexivity.
  - intros user consultant Hauth Hnone. unfold handleConnection.
    rewrite Hauth, Hnone. reflexivity.
  - intros user consultant info Hauth Hinfo Hvoice. unfold handleConnection.
    rewrite Hauth, Hinfo, Hvoice. reflexivity.
  - intros m' effects reason. unfold handleConnection.
    assert (Hfailed : forall c e m0,
              setupFailed c ws e m0 <> (m', effects, Refused reason)).
    { intros c e m0 Hrun.
      destruct (setupFailed_leaves_no_entry c ws e m0)
        as (m1 & eff1 & Hrun1 & _).
      rewrite Hrun1 in Hrun. discriminate. }
    destruct (authenticateConnection env) as [error|user consultant].
    { intros [= <- <- <-]. split; [reflexivity|]. split; [reflexivity|].
      left. reflexivity. }
    destruct (getConsultantById env) as [[info|]|e].
    + destruct (truthy (voiceId info)) eqn:Hvoice; simpl.
      * destruct (getUserById env) as [u|e];
          [|intros Hrun; by apply Hfailed in Hrun].
        destruct (OpenAIRealtimeClient.createSession _ _ _ _)
          as [[session configured]|e];
          [discriminate|intros Hrun; by apply Hfailed in Hrun].
      * intros [= <- <- <-]. split; [reflexivity|]. split; [reflexivity|].
        right. exists user, consultant. split; [reflexivity|].
        right. exists info. split; [reflexivity|].
        split; [exact Hvoice|reflexivity].
    + intros [= <- <- <-]. split; [reflexivity|]. split; [reflexivity|].
      right. exists user, consultant. split; [reflexivity|].
      left. split; reflexivity.
    + intros Hrun. by apply Hfailed in Hrun.
Qed.

(** X10 for a token that does not verify, an unknown consultant and a
    consultant without a voice id, beside a running call. *)
Lemma refused_setup_creates_nothing_witness :
  handleConnection Cases.badToken OPEN Scenario.agentSpeaking
  = (Scenario.agentSpeaking, [ClientClose 1008 "Invalid token"],
     Refused "Invalid token")
  /\ handleConnection Cases.unknownConsultant OPEN Scenario.agentSpeaking
     = (Scenario.agentSpeaking, [ClientClose 1008 "Consultant not found"],
        Refused "Consultant not found")
  /\ handleConnection Cases.voicelessConsultant OPEN Scenario.agentSpeaking
     = (Scenario.agentSpeaking,
        [ClientClose 1008 "Consultant voice ID not configured"],
        Refused "Consultant voice ID not configured").
Proof.
  split; [|split].
  - apply (proj1 (refused_setup_creates_nothing Cases.badToken OPEN
                    Scenario.agentSpeaking)).
    reflexivity.
  - apply (proj1 (proj2 (refused_setup_creates_nothing
                           Cases.unknownConsultant OPEN
                           Scenario.agentSpeaking)) 3 7);
      reflexivity.
  - apply (proj1 (proj2 (proj2 (refused_setup_creates_nothing
                                  Cases.voicelessConsultant OPEN
                                  Scenario.agentSpeaking))) 3 7
             (mkConsultant None (Some "You are a coach.")));
      reflexivity.
Defined.

(** X11.  When the set-up of a connection fails with an error, whatever
    the step that threw, no entry is left under the connection id, the
    other entries are as before, and an open client socket is closed with
    code 1011. *)
Theorem failed_setup_leaves_no_entry (env : Collaborators) (ws : ReadyState)
    (m m' : Memory) (effects : list Effect) (c : string) (e : JsError) :
  handleConnection env ws m = (m', effects, Failed c e) ->
  getState c m' = None
  /\ (forall c', c <> c' -> getState c' m' = getState c' m)
  /\ (ws = OPEN ->
      exists rest,
        effects = ClientClose 1011 "Internal server error" :: rest).
Proof.
  intros Hrun.
  destruct (handleConnection_outcome _ _ _ _ _ _ Hrun)
    as (user & consultant & _ & _ & Hgone & Hother & rest & Heff).
  split; [exact Hgone|]. split; [exact Hother|].
  intros ->. exists rest. exact Heff.
Qed.

(** X11 for a consultant lookup that throws. *)
Lemma failed_setup_leaves_no_entry_witness :
  exists m' effects,
    handleConnection Cases.brokenDirectory OPEN Scenario.agentSpeaking
    = (m', effects, Failed Scenario.conn (TransportError "ECONNREFUSED"))
    /\ getState Scenario.conn m' = None.
Proof.
  destruct (handleConnection Cases.brokenDirectory OPEN Scenario.agentSpeaking)
    as [[m' effects] outcome] eqn:Hrun.
  assert (Ho : outcome
               = Failed Scenario.conn (TransportError "ECONNREFUSED"))
    by (vm_compute in Hrun; injection Hrun as _ _ <-; reflexivity).
  subst outcome. exists m', effects. split; [reflexivity|].
  exact (proj1 (failed_setup_leaves_no_entry _ _ _ _ _ _ _ Hrun)).
Defined.

(** X12.  A connection that [handleConnection] establishes has the id
    [userId_consultantId_timestamp], an entry with the session id, the
    event-handler flag set and everything else as [initialize] left it; no
    other entry and no abort signal has changed, the model socket opened
    before the timer, and the effects are the session configuration followed
    by the [connection_success] message. *)
Theorem established_setup_registers_connection (env : Collaborators)
    (ws : ReadyState) (m m' : Memory) (effects : list Effect) (c : string) :
  handleConnection env ws m = (m', effects, Established c) ->
  exists user consultant,
    authenticateConnection env = AuthSuccess user consultant
    /\ c = makeConnectionId user consultant (connectedAt env)
    /\ getState c m'
       = Some (mkConnectionState c consultant user false false None None
                 None false (Some (generatedSessionId env)) None None
                 [] [] (initializedAt env) true false)
    /\ (forall c', c <> c' -> getState c' m' = getState c' m)
    /\ aborted m' = aborted m
    /\ (exists ms,
          modelSocket env = OpenAIRealtimeClient.OpensAfter ms
          /\ ms < OpenAIRealtimeClient.connectionTimeoutMs)
    /\ exists instructions,
         effects
         = [ModelSend (session_update instructions);
            ClientSend (connection_success c consultant)].
Proof. intros Hrun. exact (handleConnection_outcome _ _ _ _ _ _ Hrun). Qed.

(** X12 for a model socket that opens after 300 ms. *)
Lemma established_setup_registers_connection_witness :
  exists m' effects s,
    handleConnection Cases.promptModel OPEN emptyMemory
    = (m', effects, Established Scenario.conn)
    /\ getState Scenario.conn m' = Some s
    /\ _eventHandlers s = true
    /\ openaiSessionId s = Some "session_1700000000002_abc".
Proof.
  destruct (handleConnection Cases.promptModel OPEN emptyMemory)
    as [[m' effects] outcome] eqn:Hrun.
  assert (Ho : outcome = Established Scenario.conn)
    by (vm_compute in Hrun; injection Hrun as _ _ <-; reflexivity).
  subst outcome.
  destruct (established_setup_registers_connection _ _ _ _ _ _ Hrun)
    as (user & consultant & _ & _ & Hentry & _).
  exists m', effects. eexists. split; [reflexivity|].
  split; [exact Hentry|]. split; reflexivity.
Defined.

(** X3.  A frame of a known connection is appended to the model's input
    buffer exactly when [processAudioChunk] finds it not silent and the
    model socket is open; with no open model socket the step sends nothing
    to the model (at most the barge-in notice to the client). *)
Theorem frame_reaches_model_iff_audible_and_open (c : string) (chunk : Buffer)
    (session : option ReadyState) (now1 now2 : Z) (m : Memory)
    (state : ConnectionState) :
  getState c m = Some state ->
  exists info m' effects,
    processAudioChunk (Some chunk) silenceThreshold = Return info
    /\ handleAudioChunk c chunk session now1 now2 m = Return (m', effects)
    /\ (ModelSend (input_audio_buffer_append chunk) ∈ effects
        <-> isSilent info = false /\ isOpen session = true)
    /\ (isOpen session = false ->
        Forall (fun e => e = ClientSend barge_in) effects).
Proof.
  intros Hs.
  destruct (processAudioChunk_returns (Some chunk) silenceThreshold)
    as [info Hinfo].
  exists info. destruct (isSilent info) eqn:Hsilent.
  - rewrite (handleAudioChunk_silent _ _ _ _ _ _ _ _ Hs Hinfo Hsilent).
    cbv zeta.
    destruct (isSilenceDetected c silenceDurationMs now2 _),
      (isOpen session) eqn:Hopen; do 2 eexists;
      (split; [exact Hinfo|]); (split; [reflexivity|]);
      rewrite ?elem_of_cons, ?elem_of_nil;
      (split; [split; [intros H; repeat (destruct H as [H|H]);
                       try discriminate; contradiction
                      |intros [H _]; discriminate]|]);
      intros H; try discriminate; constructor.
  - rewrite (handleAudioChunk_audible _ _ _ _ _ _ _ _ Hs Hinfo Hsilent).
    cbv zeta.
    destruct (isAISpeaking state), (isOpen session) eqn:Hopen; do 2 eexists;
      (split; [exact Hinfo|]); (split; [reflexivity|]);
      rewrite ?elem_of_cons, ?elem_of_nil;
      (split; [split; [intros H; try (split; reflexivity);
                       repeat (destruct H as [H|H]);
                       try discriminate; contradiction
                      |intros [_ H]; try discriminate; tauto]|]);
      intros H; try discriminate; repeat constructor.
Qed.

(** X3 for a loud frame and an open model socket. *)
Lemma frame_reaches_model_iff_audible_and_open_witness :
  exists m' effects,
    handleAudioChunk Scenario.conn Scenario.loudFrame (Some OPEN) 3000 3001
      Scenario.fresh
    = Return (m', effects)
    /\ ModelSend (input_audio_buffer_append Scenario.loudFrame) ∈ effects.
Proof.
  destruct (frame_reaches_model_iff_audible_and_open Scenario.conn
              Scenario.loudFrame (Some OPEN) 3000 3001 Scenario.fresh _
              eq_refl)
    as (info & m' & effects & Hinfo & Hrun & Hsend & _).
  exists m', effects. split; [exact Hrun|]. apply Hsend.
  assert (Hi : info = mkAudioInfo false 0.5%float silenceThreshold)
    by (vm_compute in Hinfo; injection Hinfo as <-; reflexivity).
  subst info. split; reflexivity.
Defined.

(** X4.  A frame step changes no entry of another connection, creates no
    abort controller, and neither creates nor removes the entry of its own
    connection. *)
Theorem frame_step_touches_one_entry (c c' : string) (chunk : Buffer)
    (session : option ReadyState) (now1 now2 : Z) (m m' : Memory)
    (effects : list Effect) :
  handleAudioChunk c chunk session now1 now2 m = Return (m', effects) ->
  c <> c' ->
  getState c' m' = getState c' m
  /\ nextController m' = nextController m
  /\ (is_Some (getState c m) <-> is_Some (getState c m')).
Proof.
  intros Hrun Hne.
  destruct (getState c m) as [state|] eqn:Hs.
  - destruct (processAudioChunk_returns (Some chunk) silenceThreshold)
      as [info Hinfo].
    assert (Hother : forall call, target call = Some c -> forall m0,
              getState c' (perform call m0) = getState c' m0).
    { intros call Ht m0. apply perform_other. rewrite Ht. congruence. }
    pose proof (Hother (call_addAudioChunk c chunk) eq_refl m) as H1.
    simpl in H1.
    destruct (frame_exists c chunk session now1 now2 m state Hs)
      as (m1 & eff1 & s1 & Hrun1 & Hs1 & Hnext).
    rewrite Hrun1 in Hrun. injection Hrun as <- <-.
    split; [|split; [exact Hnext|]].
    + destruct (isSilent info) eqn:Hsilent.
      * rewrite (handleAudioChunk_silent _ _ _ _ _ _ _ _ Hs Hinfo Hsilent)
          in Hrun1. cbv zeta in Hrun1.
        pose proof (Hother (call_setUserSpeaking c false now1) eq_refl
                      (addAudioChunk c chunk m)) as H2. simpl in H2.
        destruct (isSilenceDetected c silenceDurationMs now2 _);
          injection Hrun1 as <- _.
        -- pose proof (Hother (call_clearAudioBuffer c) eq_refl
                         (setUserSpeaking c false now1
                            (addAudioChunk c chunk m))) as H3.
           simpl in H3. congruence.
        -- congruence.
      * rewrite (handleAudioChunk_audible _ _ _ _ _ _ _ _ Hs Hinfo Hsilent)
          in Hrun1. cbv zeta in Hrun1.
        pose proof (Hother (call_setUserSpeaking c true now1) eq_refl
                      (addAudioChunk c chunk m)) as H2. simpl in H2.
        destruct (isAISpeaking state); injection Hrun1 as <- _.
        -- rewrite abortAIResponse_other by assumption. congruence.
        -- congruence.
    + split; intros _; eexists; [exact Hs1|reflexivity].
  - unfold handleAudioChunk in Hrun. rewrite Hs in Hrun.
    injection Hrun as <- _. rewrite Hs.
    split; [reflexivity|]. split; reflexivity.
Qed.

(** X4 for a frame of the first of two connections. *)
Lemma frame_step_touches_one_entry_witness :
  exists m' effects,
    handleAudioChunk Scenario.conn Scenario.loudFrame (Some OPEN) 3000 3001
      Cases.twoCalls
    = Return (m', effects)
    /\ getState Cases.conn2 m' = getState Cases.conn2 Cases.twoCalls
    /\ nextController m' = nextController Cases.twoCalls.
Proof.
  destruct (frame_exists Scenario.conn Scenario.loudFrame (Some OPEN) 3000
              3001 Cases.twoCalls _ eq_refl)
    as (m' & effects & _ & Hrun & _).
  exists m', effects. split; [exact Hrun|].
  destruct (frame_step_touches_one_entry Scenario.conn Cases.conn2
              Scenario.loudFrame (Some OPEN) 3000 3001 Cases.twoCalls m'
              effects Hrun) as (Hother & Hnext & _);
    [discriminate|].
  split; [exact Hother|exact Hnext].
Defined.

End ServerStepExtras.

(** ** Text fragments *)

Section TextFragmentExtras.

Import AudioProcessor StateManager RealtimeServer RealtimeServerEvents.
Import ElevenLabsStreamingClient.

Lemma addText_entry (c : string) (text : JSText) (m : Memory)
    (s : ConnectionState) :
  getState c m = Some s ->
  getState c (addText c text m)
  = Some (set_textBuffer (textBuffer s ++ text) s).
Proof. intros Hs. unfold addText. rewrite Hs. apply getState_writeState. Qed.

Lemma setAISpeaking_true_entry (c : string) (now : Z) (m : Memory)
    (s : ConnectionState) :
  getState c m = Some s ->
  getState c (setAISpeaking c true now m)
  = Some (set_lastAIAudioTime (Some now) (set_isAISpeaking true s)).
Proof.
  intros Hs. unfold setAISpeaking. rewrite Hs. apply getState_writeState.
Qed.

Lemma streamTextToSpeech_requests_quiet (apiKey voice : option string)
    (text : option JSText) (abortController : option AbortController)
    (signals : gset nat) (transport : Transport) :
  Forall (fun e => e <> ClientSend ai_speaking_start)
    (requests (streamTextToSpeech apiKey text voice abortController signals
                 transport)).
Proof.
  unfold streamTextToSpeech.
  destruct (truthy apiKey), (truthy voice), (blank text); simpl;
    try constructor.
  destruct (axiosPost abortController signals transport) as [e|events];
    [destruct (isAbort e)|]; simpl; repeat constructor; discriminate.
Qed.

(** A non-blank fragment for an entry that is not in the barge-in state. *)
Lemma textDeltaHandler_entry (c : string) (delta : JSText)
    (voice : option string) (ws : ReadyState) (apiKey : option string)
    (transport : Transport) (now : Z) (m : Memory) (s : ConnectionState) :
  getState c m = Some s ->
  blank (Some delta) = false ->
  isUserSpeaking s && isAISpeaking s = false ->
  exists s' rest,
    getState c (textDeltaHandler c (Some delta) voice ws apiKey transport now m).1
    = Some s'
    /\ textBuffer s' = textBuffer s ++ delta
    /\ isAISpeaking s' = true
    /\ isUserSpeaking s' = isUserSpeaking s
    /\ elevenlabsAbortController s' = Some (nextController m)
    /\ openaiAbortController s' = openaiAbortController s
    /\ nextController
         (textDeltaHandler c (Some delta) voice ws apiKey transport now m).1
       = S (nextController m)
    /\ aborted (textDeltaHandler c (Some delta) voice ws apiKey transport now m).1
       = aborted m
    /\ (textDeltaHandler c (Some delta) voice ws apiKey transport now m).2
       = match ws with
         | OPEN =>
             if isAISpeaking s then []
             else [ClientSend ai_speaking_start; ClientSend ai_speaking_start]
         | _ => []
         end ++ rest
    /\ Forall (fun e => e <> ClientSend ai_speaking_start) rest.
Proof.
  intros Hs Hblank Hcalm.
  unfold textDeltaHandler. simpl default. rewrite Hblank. simpl negb. cbv iota.
  pose proof (addText_entry c delta m s Hs) as H1.
  rewrite H1.
  unfold streamTextDeltaToElevenLabs. rewrite H1.
  rewrite (shouldBargeIn_entry _ _ _ H1).
  replace (isUserSpeaking (set_textBuffer (textBuffer s ++ delta) s)
           && isAISpeaking (set_textBuffer (textBuffer s ++ delta) s))
    with false by (rewrite <- Hcalm; destruct s; reflexivity).
  pose proof (setAISpeaking_true_entry c now _ _ H1) as H2.
  unfold newAbortController. cbv zeta.
  set (m2 := setAISpeaking c true now (addText c delta m)) in *.
  assert (N2 : nextController m2 = nextController m).
  { subst m2. unfold setAISpeaking. rewrite H1. unfold addText. rewrite Hs.
    reflexivity. }
  assert (A2 : aborted m2 = aborted m).
  { subst m2. unfold setAISpeaking. rewrite H1. unfold addText. rewrite Hs.
    reflexivity. }
  set (m3 := mkMemory (connections m2) (aborted m2) (S (nextController m2))).
  assert (H3 : getState c m3 = getState c m2) by reflexivity.
  rewrite H2 in H3.
  unfold setElevenLabsAbortController. rewrite H3.
  set (s4 := set_elevenlabsAbortController (Some (nextController m2)) _).
  set (m4 := writeState c s4 m3).
  set (outcome := streamTextToSpeech apiKey (Some delta) voice
                    (Some (nextController m2)) (aborted m4) transport).
  pose proof (streamTextToSpeech_requests_quiet apiKey voice (Some delta)
                (Some (nextController m2)) (aborted m4) transport) as Hquiet.
  fold outcome in Hquiet.
  assert (Hfields : textBuffer s4 = textBuffer s ++ delta
                    /\ isAISpeaking s4 = true
                    /\ isUserSpeaking s4 = isUserSpeaking s
                    /\ elevenlabsAbortController s4 = Some (nextController m)
                    /\ openaiAbortController s4 = openaiAbortController s).
  { subst s4. rewrite N2. destruct s; repeat split; reflexivity. }
  destruct Hfields as (F1 & F2 & F3 & F4 & F5).
  assert (Hstart : forall rest : list Effect,
            match ws with
            | OPEN =>
                if negb (isAISpeaking (set_textBuffer (textBuffer s ++ delta) s))
                then [ClientSend ai_speaking_start] else []
            | _ => []
            end
            ++ match ws with
               | OPEN =>
                   if negb (isAISpeaking (set_textBuffer (textBuffer s ++ delta) s))
                   then [ClientSend ai_speaking_start] else []
               | _ => []
               end ++ rest
            = match ws with
              | OPEN =>
                  if isAISpeaking s then []
                  else [ClientSend ai_speaking_start;
                        ClientSend ai_speaking_start]
              | _ => []
              end ++ rest).
  { intros rest. destruct ws, s as [? ? ? ? []]; reflexivity. }
  assert (H4 : getState c m4 = Some s4) by apply getState_writeState.
  assert (N4 : nextController m4 = S (nextController m))
    by (subst m4 m3; simpl; rewrite N2; reflexivity).
  assert (A4 : aborted m4 = aborted m) by exact A2.
  destruct (result outcome) as [[]|e].
  - rewrite H4. cbn [fst snd].
    exists (set_elevenLabsChunkHandler true s4), (requests outcome).
    split; [apply getState_writeState|].
    split; [destruct s4; exact F1|]. split; [destruct s4; exact F2|].
    split; [destruct s4; exact F3|]. split; [destruct s4; exact F4|].
    split; [destruct s4; exact F5|].
    split; [exact N4|]. split; [exact A4|].
    split; [apply Hstart|exact Hquiet].
  - destruct (isAbort e); cbn [fst snd].
    + exists s4, (requests outcome).
      split; [exact H4|].
      repeat (split; [assumption|]).
      split; [apply Hstart|exact Hquiet].
    + exists s4, (requests outcome
                    ++ [ClientSend (error_message "TTS streaming error")]).
      split; [exact H4|].
      repeat (split; [assumption|]).
      split; [apply Hstart|].
      apply Forall_app. split; [exact Hquiet|].
      repeat constructor. discriminate.
Qed.

End TextFragmentExtras.

Section ListenerExtras.

Import AudioProcessor StateManager RealtimeServer RealtimeServerEvents.
Import ElevenLabsStreamingClient.

(** X19.  A non-blank text fragment for an entry that is not in the
    barge-in state is appended to the text buffer, marks the agent as
    speaking, leaves the user flag alone, and stores a new abort controller
    for the synthesis stream. *)
Theorem text_fragment_marks_agent_speaking (c : string) (delta : JSText)
    (voice : option string) (ws : ReadyState) (apiKey : option string)
    (transport : Transport) (now : Z) (m : Memory) (s : ConnectionState) :
  getState c m = Some s ->
  blank (Some delta) = false ->
  isUserSpeaking s && isAISpeaking s = false ->
  exists s',
    getState c (textDeltaHandler c (Some delta) voice ws apiKey transport now m).1
    = Some s'
    /\ textBuffer s' = textBuffer s ++ delta
    /\ isAISpeaking s' = true
    /\ isUserSpeaking s' = isUserSpeaking s
    /\ elevenlabsAbortController s' = Some (nextController m)
    /\ nextController
         (textDeltaHandler c (Some delta) voice ws apiKey transport now m).1
       = S (nextController m).
Proof.
  intros Hs Hblank Hcalm.
  destruct (textDeltaHandler_entry c delta voice ws apiKey transport now m s
              Hs Hblank Hcalm)
    as (s' & rest & H1 & H2 & H3 & H4 & H5 & _ & H7 & _).
  exists s'. repeat (split; [assumption|]). exact H7.
Qed.

(** X19 while the user is speaking. *)
Lemma text_fragment_marks_agent_speaking_witness :
  exists s',
    getState Scenario.conn
      (textDeltaHandler Scenario.conn (Some Scenario.helloText)
         (Some "voice-1") OPEN (Some "xi-key") (Responds []) 600
         Scenario.userSpeaking).1
    = Some s'
    /\ textBuffer s' = Scenario.helloText
    /\ isAISpeaking s' = true
    /\ isUserSpeaking s' = true.
Proof.
  destruct (text_fragment_marks_agent_speaking Scenario.conn
              Scenario.helloText (Some "voice-1") OPEN (Some "xi-key")
              (Responds []) 600 Scenario.userSpeaking _ eq_refl eq_refl
              eq_refl)
    as (s' & H1 & H2 & H3 & H4 & _).
  exists s'. split; [exact H1|]. split; [exact H2|]. split; [exact H3|].
  exact H4.
Defined.

(** X20.  When the agent was not speaking and the client socket is open,
    one non-blank fragment sends [ai_speaking_start] twice: once from the
    listener and once from [streamTextDeltaToElevenLabs], both of which read
    [isAISpeaking] before it is set.  Nothing else in the step sends it. *)
Theorem first_fragment_is_announced_twice (c : string) (delta : JSText)
    (voice : option string) (apiKey : option string) (transport : Transport)
    (now : Z) (m : Memory) (s : ConnectionState) :
  getState c m = Some s ->
  blank (Some delta) = false ->
  isAISpeaking s = false ->
  exists rest,
    (textDeltaHandler c (Some delta) voice OPEN apiKey transport now m).2
    = ClientSend ai_speaking_start :: ClientSend ai_speaking_start :: rest
    /\ Forall (fun e => e <> ClientSend ai_speaking_start) rest.
Proof.
  intros Hs Hblank Hquiet.
  destruct (textDeltaHandler_entry c delta voice OPEN apiKey transport now m s
              Hs Hblank)
    as (s' & rest & _ & _ & _ & _ & _ & _ & _ & _ & Heff & Hrest).
  { rewrite Hquiet. apply andb_false_r. }
  exists rest. rewrite Heff, Hquiet. split; [reflexivity|exact Hrest].
Qed.

(** X20 on a new connection. *)
Lemma first_fragment_is_announced_twice_witness :
  (textDeltaHandler Scenario.conn (Some Scenario.helloText) (Some "voice-1")
     OPEN (Some "xi-key") (Responds []) 600 Scenario.fresh).2
  = [ClientSend ai_speaking_start; ClientSend ai_speaking_start;
     SynthesisRequest Scenario.helloText "voice-1"].
Proof.
  destruct (first_fragment_is_announced_twice Scenario.conn Scenario.helloText
              (Some "voice-1") (Some "xi-key") (Responds []) 600
              Scenario.fresh _ eq_refl eq_refl eq_refl)
    as (rest & Heff & _).
  rewrite Heff. vm_compute in Heff. injection Heff as <-. reflexivity.
Defined.

(** X21.  The entry holds one synthesis controller: a fragment stores a
    new one over it, and a later [abortAIResponse] aborts the new one only.
    The stream of the earlier fragment keeps its signal unaborted. *)
Theorem superseded_controller_is_not_aborted (c : string) (delta : JSText)
    (voice : option string) (ws : ReadyState) (apiKey : option string)
    (transport : Transport) (now : Z) (m : Memory) (s : ConnectionState)
    (earlier : nat) :
  getState c m = Some s ->
  blank (Some delta) = false ->
  isUserSpeaking s && isAISpeaking s = false ->
  elevenlabsAbortController s = Some earlier ->
  (earlier < nextController m)%nat ->
  earlier ∉ aborted m ->
  openaiAbortController s <> Some earlier ->
  let m1 :=
    (textDeltaHandler c (Some delta) voice ws apiKey transport now m).1 in
  nextController m ∈ aborted (abortAIResponse c m1)
  /\ earlier ∉ aborted (abortAIResponse c m1).
Proof.
  intros Hs Hblank Hcalm Hearlier Hold Hlive Hother m1.
  destruct (textDeltaHandler_entry c delta voice ws apiKey transport now m s
              Hs Hblank Hcalm)
    as (s' & rest & H1 & _ & _ & _ & He & Ho & _ & Hab & _).
  fold m1 in H1, Hab.
  destruct (abortAIResponse_entry c m1 s' H1) as (s2 & _ & _ & Hab2 & _).
  rewrite Hab2, He, Ho, Hab. simpl. split.
  - apply elem_of_union_r, elem_of_union_l, elem_of_singleton_2. reflexivity.
  - rewrite !not_elem_of_union. split; [|split].
    + destruct (openaiAbortController s) as [k|]; simpl.
      * rewrite not_elem_of_singleton. congruence.
      * apply not_elem_of_empty.
    + rewrite not_elem_of_singleton. lia.
    + exact Hlive.
Qed.

(** X21 for a second fragment: controller 1 is aborted, controller 0 is
    not. *)
Lemma superseded_controller_is_not_aborted_witness :
  1%nat ∈ aborted
            (abortAIResponse Scenario.conn
               (textDeltaHandler Scenario.conn (Some Scenario.helloText)
                  (Some "voice-1") OPEN (Some "xi-key") (Responds []) 700
                  Cases.afterFirstFragment).1)
  /\ 0%nat ∉ aborted
               (abortAIResponse Scenario.conn
                  (textDeltaHandler Scenario.conn (Some Scenario.helloText)
                     (Some "voice-1") OPEN (Some "xi-key") (Responds []) 700
                     Cases.afterFirstFragment).1).
Proof.
  destruct (getState Scenario.conn Cases.afterFirstFragment) as [s|] eqn:Hs;
    [|vm_compute in Hs; discriminate].
  assert (Hfields : isUserSpeaking s = false
                    /\ elevenlabsAbortController s = Some 0%nat
                    /\ openaiAbortController s = None).
  { vm_compute in Hs. injection Hs as <-. repeat split; reflexivity. }
  destruct Hfields as (Huser & Hk & Ho).
  apply (superseded_controller_is_not_aborted Scenario.conn
           Scenario.helloText (Some "voice-1") OPEN (Some "xi-key")
           (Responds []) 700 Cases.afterFirstFragment s 0%nat Hs eq_refl).
  - rewrite Huser. reflexivity.
  - exact Hk.
  - vm_compute. lia.
  - assert (Hab : aborted Cases.afterFirstFragment = ∅)
      by (vm_compute; reflexivity).
    rewrite Hab. apply not_elem_of_empty.
  - rewrite Ho. discriminate.
Defined.

(** X22.  A non-blank fragment that arrives while both flags are set is
    added to the buffer, and then the barge-in test of
    [streamTextDeltaToElevenLabs] runs [abortAIResponse]: nothing is sent or
    requested, the buffer is empty again, the agent is not speaking and no
    controller is stored. *)
Theorem fragment_in_barge_in_state_aborts (c : string) (delta : JSText)
    (voice : option string) (ws : ReadyState) (apiKey : option string)
    (transport : Transport) (now : Z) (m : Memory) (s : ConnectionState) :
  getState c m = Some s ->
  blank (Some delta) = false ->
  isUserSpeaking s = true -> isAISpeaking s = true ->
  textDeltaHandler c (Some delta) voice ws apiKey transport now m
  = (abortAIResponse c (addText c delta m), [])
  /\ exists s',
       getState c (abortAIResponse c (addText c delta m)) = Some s'
       /\ textBuffer s' = [] /\ isAISpeaking s' = false
       /\ elevenlabsAbortController s' = None.
Proof.
  intros Hs Hblank Huser Hagent.
  pose proof (addText_entry c delta m s Hs) as H1.
  split.
  - unfold textDeltaHandler. simpl default. rewrite Hblank. simpl negb.
    cbv iota. rewrite H1. unfold streamTextDeltaToElevenLabs. rewrite H1.
    rewrite (shouldBargeIn_entry _ _ _ H1).
    replace (isUserSpeaking (set_textBuffer (textBuffer s ++ delta) s)
             && isAISpeaking (set_textBuffer (textBuffer s ++ delta) s))
      with true by (destruct s; simpl in *; subst; reflexivity).
    replace (isAISpeaking (set_textBuffer (textBuffer s ++ delta) s))
      with true by (destruct s; simpl in *; subst; reflexivity).
    destruct ws; reflexivity.
  - destruct (abortAIResponse_entry c _ _ H1) as (s' & Hs' & -> & _).
    eexists. split; [exact Hs'|]. destruct s; repeat split; reflexivity.
Qed.

(** X22 when the user speaks over the agent. *)
Lemma fragment_in_barge_in_state_aborts_witness :
  textDeltaHandler Scenario.conn (Some Scenario.helloText) (Some "voice-1")
    OPEN (Some "xi-key") (Responds []) 600
    (setUserSpeaking Scenario.conn true 500 Scenario.agentSpeaking)
  = (abortAIResponse Scenario.conn
       (addText Scenario.conn Scenario.helloText
          (setUserSpeaking Scenario.conn true 500 Scenario.agentSpeaking)),
     []).
Proof.
  refine (proj1 (fragment_in_barge_in_state_aborts Scenario.conn
                   Scenario.helloText (Some "voice-1") OPEN (Some "xi-key")
                   (Responds []) 600
                   (setUserSpeaking Scenario.conn true 500
                      Scenario.agentSpeaking) _ eq_refl eq_refl eq_refl
                   eq_refl)).
Defined.

(** X23.  The audio-chunk listener forwards a chunk, unchanged, exactly
    when the connection has an entry, is not in the barge-in state, the
    client socket is open and the send does not throw.  When it removes
    itself it has sent nothing and has aborted its stream, which then emits
    no further chunk; it never changes an entry, and it always removes
    itself when the entry is gone or a barge-in is on. *)
Theorem chunk_is_forwarded_only_when_safe (c : string) (k : nat)
    (ws : ReadyState) (sendThrows : bool) (chunk : Buffer) (m : Memory) :
  let step := audioChunkHandler c k ws sendThrows chunk m in
  (sent step = Some chunk
   <-> is_Some (getState c m) /\ shouldBargeIn c m = false
       /\ ws = OPEN /\ sendThrows = false)
  /\ (sent step = None \/ sent step = Some chunk)
  /\ (listening step = false ->
      sent step = None /\ k ∈ aborted (memoryAfter step)
      /\ forall events,
           Forall (fun e => e = stream_end)
             (deliver (Some k) events (aborted (memoryAfter step))))
  /\ (listening step = true -> memoryAfter step = m)
  /\ connections (memoryAfter step) = connections m
  /\ (getState c m = None \/ shouldBargeIn c m = true ->
      listening step = false).
Proof.
  cbv zeta. unfold audioChunkHandler.
  assert (Hin : k ∈ aborted (abort k m)).
  { simpl. apply elem_of_union_l, elem_of_singleton_2. reflexivity. }
  assert (Hstop : forall events,
            Forall (fun e => e = stream_end)
              (deliver (Some k) events (aborted (abort k m)))).
  { intros events. apply deliver_after_abort. simpl.
    apply bool_decide_eq_true. exact Hin. }
  assert (Hbarge : getState c m = None -> shouldBargeIn c m = false).
  { intros Hs. unfold shouldBargeIn. rewrite Hs. reflexivity. }
  destruct (getState c m) as [s|] eqn:Hs.
  - destruct (shouldBargeIn c m) eqn:Hb; [|destruct ws, sendThrows]; simpl;
      (split; [split; [try discriminate; intros _; repeat split; eauto
                      |intros (_ & H1 & H2 & H3);
                       try discriminate; reflexivity]|]);
      (split; [tauto|]);
      (split; [intros H; try discriminate; repeat split; assumption|]);
      (split; [intros H; try discriminate; reflexivity|]);
      (split; [reflexivity|]);
      intros [H|H]; try discriminate; reflexivity.
  - simpl. split.
    { split; [discriminate|]. intros ([x Hx] & _). discriminate. }
    split; [tauto|]. split; [intros _; repeat split; assumption|].
    split; [discriminate|]. split; [reflexivity|]. reflexivity.
Qed.

(** X24.  The [response_interrupted] listener clears the agent flag and
    the text buffer, aborts nothing, and sends [ai_response_interrupted];
    after [abortAIResponse] it changes nothing in the store. *)
Theorem interrupted_event_resets_agent (c : string) (now : Z) (m : Memory)
    (s : ConnectionState) :
  getState c m = Some s ->
  (responseInterruptedHandler c now m).2 = [ClientSend ai_response_interrupted]
  /\ getState c (responseInterruptedHandler c now m).1
     = Some (set_textBuffer [] (set_isAISpeaking false s))
  /\ aborted (responseInterruptedHandler c now m).1 = aborted m
  /\ (responseInterruptedHandler c now (abortAIResponse c m)).1
     = abortAIResponse c m.
Proof.
  intros Hs. unfold responseInterruptedHandler. cbn [fst snd].
  assert (Hstep : forall m0 s0,
            getState c m0 = Some s0 ->
            clearTextBuffer c (setAISpeaking c false now m0)
            = writeState c (set_textBuffer [] (set_isAISpeaking false s0)) m0).
  { intros m0 s0 Hs0. unfold setAISpeaking. rewrite Hs0.
    unfold clearTextBuffer. rewrite getState_writeState.
    apply writeState_writeState. }
  split; [reflexivity|]. rewrite (Hstep m s Hs).
  split; [apply getState_writeState|]. split; [reflexivity|].
  destruct (abortAIResponse_entry c m s Hs) as (s1 & Hs1 & Hreset & _).
  rewrite (Hstep _ s1 Hs1). apply writeState_same.
  rewrite Hs1. f_equal. subst s1. destruct s; reflexivity.
Qed.

(** X24 after a barge-in. *)
Lemma interrupted_event_resets_agent_witness :
  (responseInterruptedHandler Scenario.conn 700
     (abortAIResponse Scenario.conn Scenario.agentSpeaking)).1
  = abortAIResponse Scenario.conn Scenario.agentSpeaking.
Proof.
  destruct (interrupted_event_resets_agent Scenario.conn 700
              Scenario.agentSpeaking _ eq_refl) as (_ & _ & _ & H).
  exact H.
Defined.

End ListenerExtras.

(** ** One event, many listeners *)

Section FanOutExtras.

Import AudioProcessor StateManager RealtimeServer RealtimeServerEvents.
Import ElevenLabsStreamingClient.

(** A listener run changes no entry but its own. *)
Lemma textDeltaHandler_other (c c' : string) (delta : option JSText)
    (voice : option string) (ws : ReadyState) (apiKey : option string)
    (transport : Transport) (now : Z) (m : Memory) :
  c <> c' ->
  getState c' (textDeltaHandler c delta voice ws apiKey transport now m).1
  = getState c' m.
Proof.
  intros Hne.
  assert (Hother : forall call, target call = Some c -> forall m0,
            getState c' (perform call m0) = getState c' m0).
  { intros call Ht m0. apply perform_other. rewrite Ht. congruence. }
  unfold textDeltaHandler.
  destruct (negb (blank (Some (default [] delta)))); [|reflexivity].
  pose proof (Hother (call_addText c (default [] delta)) eq_refl m) as H1.
  simpl in H1. set (m1 := addText c (default [] delta) m) in *.
  destruct (streamTextDeltaToElevenLabs c (default [] delta) voice ws apiKey
              transport now m1) as [m' effects] eqn:Hrun.
  cbn [fst]. rewrite <- H1.
  unfold streamTextDeltaToElevenLabs in Hrun.
  destruct (getState c m1) as [s1|] eqn:Hs1;
    [|injection Hrun as <- _; reflexivity].
  destruct (shouldBargeIn c m1).
  { injection Hrun as <- _. by apply abortAIResponse_other. }
  pose proof (Hother (call_setAISpeaking c true now) eq_refl m1) as H2.
  simpl in H2. set (m2 := setAISpeaking c true now m1) in *.
  unfold newAbortController in Hrun. cbv zeta in Hrun.
  set (m3 := mkMemory (connections m2) (aborted m2) (S (nextController m2)))
    in *.
  pose proof (Hother (call_setElevenLabsAbortController c
                        (Some (nextController m2))) eq_refl m3) as H4.
  simpl in H4.
  set (m4 := setElevenLabsAbortController c (Some (nextController m2)) m3)
    in *.
  assert (H3 : getState c' m3 = getState c' m2) by reflexivity.
  pose proof (Hother (call_setChunkHandler c true) eq_refl m4) as H5.
  simpl in H5.
  destruct (result _) as [[]|e]; [|destruct (isAbort e)];
    injection Hrun as <- _; congruence.
Qed.

Lemma emitTextDelta_other (listeners : list ListenerRun)
    (delta : option JSText) (apiKey : option string) (m : Memory)
    (c' : string) :
  c' ∉ listenerConnection <$> listeners ->
  getState c' (emitTextDelta listeners delta apiKey m) = getState c' m.
Proof.
  unfold emitTextDelta. revert m.
  induction listeners as [|l listeners IH]; intros m Hnot; [reflexivity|].
  simpl in *. apply not_elem_of_cons in Hnot as [Hne Hnot].
  rewrite IH by assumption. apply textDeltaHandler_other. congruence.
Qed.

(** X25.  The model client is shared: one [text_delta] event runs the
    listener of every connection.  Each connection with a listener whose
    entry is not in the barge-in state gets the fragment appended to its
    own text buffer and its agent marked speaking; connections without a
    listener are unchanged. *)
Theorem text_delta_reaches_every_listener (listeners : list ListenerRun)
    (delta : JSText) (apiKey : option string) (m : Memory) (l : ListenerRun)
    (s : ConnectionState) :
  blank (Some delta) = false ->
  NoDup (listenerConnection <$> listeners) ->
  l ∈ listeners ->
  getState (listenerConnection l) m = Some s ->
  isUserSpeaking s && isAISpeaking s = false ->
  (exists s',
     getState (listenerConnection l)
       (emitTextDelta listeners (Some delta) apiKey m) = Some s'
     /\ textBuffer s' = textBuffer s ++ delta
     /\ isAISpeaking s' = true)
  /\ forall c', c' ∉ listenerConnection <$> listeners ->
       getState c' (emitTextDelta listeners (Some delta) apiKey m)
       = getState c' m.
Proof.
  intros Hblank Hnodup Hin Hs Hcalm.
  split; [|intros c' Hc'; by apply emitTextDelta_other].
  revert m Hs. induction listeners as [|a listeners IH]; intros m Hs.
  { by apply elem_of_nil in Hin. }
  simpl in Hnodup. apply NoDup_cons in Hnodup as [Hfresh Hnodup].
  change (emitTextDelta (a :: listeners) (Some delta) apiKey m)
    with (emitTextDelta listeners (Some delta) apiKey
            (textDeltaHandler (listenerConnection a) (Some delta)
               (listenerVoice a) (listenerSocket a) apiKey
               (listenerTransport a) (listenerNow a) m).1).
  apply elem_of_cons in Hin as [->|Hin].
  - rewrite emitTextDelta_other by assumption.
    destruct (textDeltaHandler_entry (listenerConnection a) delta
                (listenerVoice a) (listenerSocket a) apiKey
                (listenerTransport a) (listenerNow a) m s Hs Hblank Hcalm)
      as (s' & rest & H1 & H2 & H3 & _).
    exists s'. split; [exact H1|]. split; assumption.
  - apply IH; [assumption|assumption|].
    rewrite textDeltaHandler_other; [exact Hs|].
    intros Heq. apply Hfresh. rewrite Heq.
    apply list_elem_of_fmap_2. exact Hin.
Qed.

(** X25 for the second of two connections. *)
Lemma text_delta_reaches_every_listener_witness :
  exists s',
    getState Cases.conn2
      (emitTextDelta Cases.bothListeners (Some Scenario.helloText)
         (Some "xi-key") Cases.twoCalls) = Some s'
    /\ textBuffer s' = Scenario.helloText
    /\ isAISpeaking s' = true.
Proof.
  refine (proj1 (text_delta_reaches_every_listener Cases.bothListeners
                   Scenario.helloText (Some "xi-key") Cases.twoCalls
                   (mkListenerRun Cases.conn2 (Some "voice-1") OPEN
                      (Responds []) 601) _ eq_refl _ _ eq_refl eq_refl)).
  - repeat constructor; rewrite ?elem_of_cons, ?elem_of_nil;
      intros H; repeat (destruct H as [H|H]); try discriminate; contradiction.
  - apply elem_of_cons. right. apply elem_of_cons. left. reflexivity.
Defined.

End FanOutExtras.

(** ** The fallback of [processAudioChunk] *)

Section AudioExtras.

Import AudioProcessor.

(** X26.  For chunks of odd length the answer of [processAudioChunk]
    depends on the first 100 bytes only: two such chunks that agree there
    get the same answer, whatever follows. *)
Theorem fallback_reads_first_100_bytes (a b : Buffer) (t : float) :
  Nat.Odd (length a) -> Nat.Odd (length b) ->
  take 100 a = take 100 b ->
  processAudioChunk (Some a) t = processAudioChunk (Some b) t.
Proof.
  intros Ha Hb Hsame.
  assert (Hodd : forall buf, Nat.Odd (length buf) ->
            processAudioChunk (Some buf) t
            = Return (mkAudioInfo (negb (Nat.ltb 10 (nonZeroCount buf)))
                        (if Nat.ltb 10 (nonZeroCount buf)
                         then 0x1.999999999999ap-4%float else 0%float) t)).
  { intros buf Hbuf. unfold processAudioChunk.
    destruct (Nat.eqb_spec (length buf) 0) as [Hz|Hnz].
    { destruct Hbuf as [n Hn]. lia. }
    rewrite calculateRMS_dangling by assumption. reflexivity. }
  rewrite (Hodd a Ha), (Hodd b Hb). unfold nonZeroCount. rewrite Hsame.
  reflexivity.
Qed.

(** X26: 21 loud bytes after 100 zero bytes are not heard. *)
Lemma fallback_reads_first_100_bytes_witness :
  processAudioChunk (Some Cases.lateLoudChunk) RealtimeServer.silenceThreshold
  = processAudioChunk (Some Cases.quietOddChunk) RealtimeServer.silenceThreshold.
Proof.
  apply (fallback_reads_first_100_bytes Cases.lateLoudChunk
           Cases.quietOddChunk RealtimeServer.silenceThreshold).
  - exists 60%nat. reflexivity.
  - exists 50%nat. reflexivity.
  - reflexivity.
Defined.

End AudioExtras.
